(** * Query-filter helpers of [netbox/utilities/filters.py]

    A shallow embedding of the filter adapter classes and of the
    collaborators they talk to (Python values, the ORM queryset, the
    django-filter base classes, the tree model), followed by the
    theorems that settle the properties stated for them. *)

From Stdlib Require Import ZArith Ascii.
From stdpp Require Import base list gmap strings.

Local Set Warnings "-register-all".
Local Open Scope Z_scope.
Local Open Scope list_scope.

(** ** Python values *)

Module Py.

(** A node of the hierarchical model (a region, a site group, ...):
    its primary key and the nodes directly below it. *)
Inductive node : Type :=
| Node (pk : Z) (children : list node).

(** The values that reach the filters: [None], booleans, integers,
    strings, lists, tuples, dicts, tree-model instances, and the
    queryset of nodes that [get_descendants] hands back. *)
Inductive pyval : Type :=
| PNone
| PBool (b : bool)
| PInt (z : Z)
| PStr (s : string)
| PList (l : list pyval)
| PTuple (l : list pyval)
| PDict (d : list (pyval * pyval))
| PNode (n : node)
| PNodeSet (ns : list node).

(** The exceptions that occur in the module. *)
Inductive exn : Type :=
| ValidationError
| ValueError
| AttributeError
| TypeError.

#[global] Instance exn_eq_dec : EqDecision exn.
Proof. solve_decision. Defined.

Inductive result (A : Type) : Type :=
| Ok (a : A)
| Raise (e : exn).
Arguments Ok {A} a.
Arguments Raise {A} e.

Definition is_nil {A} (l : list A) : bool :=
  match l with
  | [] => true
  | _ :: _ => false
  end.

Definition rbind {A B} (r : result A) (k : A -> result B) : result B :=
  match r with
  | Ok a => k a
  | Raise e => Raise e
  end.

(** [[f(v) for v in l]]: left to right, the first exception wins. *)
Fixpoint map_r {A B} (f : A -> result B) (l : list A) : result (list B) :=
  match l with
  | [] => Ok []
  | x :: l' =>
      rbind (f x) (fun y => rbind (map_r f l') (fun ys => Ok (y :: ys)))
  end.

(** [for v in l: f(v)] *)
Fixpoint for_r {A} (f : A -> result unit) (l : list A) : result unit :=
  match l with
  | [] => Ok tt
  | x :: l' => rbind (f x) (fun _ => for_r f l')
  end.

(** Truth value of an object, as tested by [if value:] and [not value]. *)
Definition truthy (v : pyval) : bool :=
  match v with
  | PNone => false
  | PBool b => b
  | PInt z => negb (z =? 0)
  | PStr s => negb (String.eqb s "")
  | PList l | PTuple l => negb (is_nil l)
  | PDict d => negb (is_nil d)
  | PNode _ => true
  | PNodeSet ns => negb (is_nil ns)
  end.

(** Pointwise comparison of two sequences. *)
Fixpoint all2 {A} (eqb : A -> A -> bool) (xs ys : list A) : bool :=
  match xs, ys with
  | [], [] => true
  | x :: xs', y :: ys' => eqb x y && all2 eqb xs' ys'
  | _, _ => false
  end.

Fixpoint node_eqb (a b : node) {struct a} : bool :=
  match a, b with
  | Node i ca, Node j cb =>
      (i =? j) &&
      (fix go (xs ys : list node) {struct xs} : bool :=
         match xs, ys with
         | [], [] => true
         | x :: xs', y :: ys' => node_eqb x y && go xs' ys'
         | _, _ => false
         end) ca cb
  end.

(** Python's [==]. Booleans compare as the integers 0 and 1; values of
    different kinds are unequal. *)
Fixpoint py_eqb (a b : pyval) {struct a} : bool :=
  let fix go (xs ys : list pyval) {struct xs} : bool :=
    match xs, ys with
    | [], [] => true
    | x :: xs', y :: ys' => py_eqb x y && go xs' ys'
    | _, _ => false
    end in
  let fix god (xs ys : list (pyval * pyval)) {struct xs} : bool :=
    match xs, ys with
    | [], [] => true
    | (k, x) :: xs', (k', y) :: ys' => py_eqb k k' && py_eqb x y && god xs' ys'
    | _, _ => false
    end in
  match a, b with
  | PNone, PNone => true
  | PBool x, PBool y => Bool.eqb x y
  | PBool x, PInt y => Z.b2z x =? y
  | PInt x, PBool y => x =? Z.b2z y
  | PInt x, PInt y => x =? y
  | PStr x, PStr y => String.eqb x y
  | PList xs, PList ys => go xs ys
  | PTuple xs, PTuple ys => go xs ys
  | PDict xs, PDict ys => god xs ys
  | PNode x, PNode y => node_eqb x y
  | PNodeSet xs, PNodeSet ys => all2 node_eqb xs ys
  | _, _ => false
  end.

(** How deeply lists are nested in a value. *)
Fixpoint depth (v : pyval) : nat :=
  match v with
  | PList l =>
      S ((fix go (xs : list pyval) : nat :=
            match xs with
            | [] => 0%nat
            | x :: xs' => Nat.max (depth x) (go xs')
            end) l)
  | _ => 0%nat
  end.

(** [x in xs] on a tuple: equality with some member. *)
Definition py_in (x : pyval) (xs : list pyval) : bool :=
  existsb (fun y => py_eqb x y) xs.

(** [isinstance(v, str)] *)
Definition isinstance_str (v : pyval) : bool :=
  match v with
  | PStr _ => true
  | _ => false
  end.

(** A [string] holds the UTF-8 encoding of a Python [str]: a character
    is one byte below 128, or a lead byte followed by its continuation
    bytes (the bytes from 128 to 191). *)
Definition is_continuation (c : ascii) : bool :=
  let n := N_of_ascii c in ((128 <=? n) && (n <? 192))%N.

(** The one-character strings that iterating a string yields: a byte
    opens a character unless it continues the one before it. *)
Fixpoint chars (s : string) : list string :=
  match s with
  | EmptyString => []
  | String c s' =>
      match s' with
      | EmptyString => [String c EmptyString]
      | String d _ =>
          if is_continuation d
          then match chars s' with
               | first :: rest => String c first :: rest
               | [] => [String c EmptyString]
               end
          else String c EmptyString :: chars s'
      end
  end.

(** A string of ASCII characters only. *)
Fixpoint is_ascii (s : string) : bool :=
  match s with
  | EmptyString => true
  | String c s' => (N_of_ascii c <? 128)%N && is_ascii s'
  end.

(** Iterating a value: lists and tuples give their members, a string
    its characters; the other values are not iterable here. *)
Definition py_iter (v : pyval) : result (list pyval) :=
  match v with
  | PList l | PTuple l => Ok l
  | PStr s => Ok (map PStr (chars s))
  | PDict d => Ok (map fst d)
  | PNodeSet ns => Ok (map PNode ns)
  | PNone | PBool _ | PInt _ | PNode _ => Raise TypeError
  end.

(** Lower-casing of the ASCII letters: on a string of ASCII characters
    this is what [str.lower()] returns. What [str.lower()] does on
    other strings is not computed here; the code that calls it takes
    it as a parameter, see [lower_spec]. *)
Definition lower_ascii (c : ascii) : ascii :=
  let n := N_of_ascii c in
  if ((65 <=? n) && (n <=? 90))%N then ascii_of_N (n + 32) else c.

Fixpoint lower (s : string) : string :=
  match s with
  | EmptyString => EmptyString
  | String c s' => String (lower_ascii c) (lower s')
  end.

(** [s.split(sep)] for a one-character separator: every occurrence
    cuts, so the result has one more piece than there are separators. *)
Fixpoint split (sep : ascii) (s : string) : list string :=
  match s with
  | EmptyString => [EmptyString]
  | String c s' =>
      if Ascii.eqb c sep then EmptyString :: split sep s'
      else match split sep s' with
           | piece :: rest => String c piece :: rest
           | [] => [String c EmptyString]
           end
  end.


(** How often the character [c] occurs in [s]. *)
Fixpoint count_char (c : ascii) (s : string) : nat :=
  match s with
  | EmptyString => 0%nat
  | String a s' => ((if Ascii.eqb a c then 1 else 0) + count_char c s')%nat
  end.

(** What is used of the builtin [str.lower]: on ASCII strings it
    lower-cases the letters A to Z, and on every string it leaves the
    dots where they are and makes no new one. *)
Record lower_spec (str_lower : string -> string) : Prop := {
  lower_on_ascii : forall s, is_ascii s = true -> str_lower s = lower s;
  lower_keeps_dots : forall s, count_char "." (str_lower s) = count_char "." s;
}.

End Py.

(** ** The ORM queryset *)

Module Orm.
Import Py.

(** Keyword arguments of a lookup call, such as
    [{'site__model': 'site'}]: a dict from lookup names to values. *)
Abbreviation kwargs := (gmap string pyval).

(** A [Q] object: the conjunction of keyword lookups ([Q()] is the
    empty one), or the disjunction of two [Q] objects. *)
Inductive Q : Type :=
| QAnd (kw : kwargs)
| QOr (a b : Q).

Definition q_is_empty (q : Q) : bool :=
  match q with
  | QAnd kw => is_nil (map_to_list kw)
  | QOr _ _ => false
  end.

(** [a | b]: an empty operand is dropped. *)
Definition q_or (a b : Q) : Q :=
  if q_is_empty a then b
  else if q_is_empty b then a
  else QOr a b.

(** Modelled from the spec: the queryset, "an external,
    lazily-evaluated collection of model rows; filters narrow it by
    returning a modified copy". The query a queryset object holds:
    the conditions added so far (each one kept or negated), whether
    duplicates are dropped, and whether it was emptied by [none()]. *)
Record Query : Type := mkQuery {
  conditions : list (bool * Q);
  is_distinct : bool;
  is_empty : bool;
}.

(** The objects alive in the process: a queryset variable is a
    reference into the store, so that two names can share one object
    and a change made in place would be seen through both. *)
Definition store : Type := list Query.
Definition ref : Type := nat.

(** Code that may raise and may allocate or change objects. *)
Definition M (A : Type) : Type := store -> result A * store.

Definition ret {A} (a : A) : M A := fun st => (Ok a, st).
Definition raise {A} (e : exn) : M A := fun st => (Raise e, st).
Definition bind {A B} (m : M A) (k : A -> M B) : M B :=
  fun st =>
    match m st with
    | (Ok a, st') => k a st'
    | (Raise e, st') => (Raise e, st')
    end.
Definition lift {A} (r : result A) : M A := fun st => (r, st).

(** [try: m / except e: h] *)
Definition try_except {A} (m : M A) (e : exn) (h : M A) : M A :=
  fun st =>
    match m st with
    | (Ok a, st') => (Ok a, st')
    | (Raise e', st') =>
        if decide (e' = e) then h st' else (Raise e', st')
    end.

(** Modelled from the spec: every queryset method "returns a modified
    copy": the receiver is read, a new object is allocated, the
    receiver stays as it was. A reference to no object raises. *)
Definition chain (f : Query -> Query) (qs : ref) : M ref :=
  fun st =>
    match st !! qs with
    | Some q => (Ok (length st), st ++ [f q])
    | None => (Raise AttributeError, st)
    end.

Definition add_condition (negated : bool) (c : Q) (q : Query) : Query :=
  mkQuery (conditions q ++ [(negated, c)]) (is_distinct q) (is_empty q).
Definition set_distinct (q : Query) : Query :=
  mkQuery (conditions q) true (is_empty q).
Definition set_empty (q : Query) : Query :=
  mkQuery (conditions q) (is_distinct q) true.

(** A step [m] leaves every object of the store it starts from as it
    was: the store it ends in has the initial one as a prefix. *)
Definition preserves {A} (m : M A) : Prop :=
  forall st, st `prefix_of` (m st).2.

(** A step [m] started on the queryset [qs] hands back [qs] itself
    or an object that did not exist before, and changes no object
    on the way. *)
Definition returns_copy (qs : ref) (m : M ref) : Prop :=
  preserves m /\
  forall st r st', m st = (Ok r, st') ->
    r = qs \/ (st !! r = None /\ is_Some (st' !! r)).

(** The query [q'] is [q] with conditions added: none is dropped or
    changed, and what was distinct or emptied stays so. *)
Definition extends (q q' : Query) : Prop :=
  (exists added, conditions q' = conditions q ++ added) /\
  (is_distinct q = true -> is_distinct q' = true) /\
  (is_empty q = true -> is_empty q' = true).

(** A step [m] started on the queryset [qs] changes no object and
    hands back a queryset, [qs] itself or one that did not exist
    before, that holds the query of [qs] with conditions added. *)
Definition returns_narrowed (qs : ref) (m : M ref) : Prop :=
  preserves m /\
  forall st q r st', st !! qs = Some q -> m st = (Ok r, st') ->
    (r = qs \/ st !! r = None) /\
    exists q', st' !! r = Some q' /\ extends q q'.

Module QuerySet.
(** [qs.filter(...)], with a [Q] object or with keyword lookups *)
Definition filter (c : Q) (qs : ref) : M ref := chain (add_condition false c) qs.
(** [qs.exclude(...)], with a [Q] object or with keyword lookups *)
Definition exclude (c : Q) (qs : ref) : M ref := chain (add_condition true c) qs.
(** [qs.none()] *)
Definition none (qs : ref) : M ref := chain set_empty qs.
(** [qs.distinct()] *)
Definition distinct (qs : ref) : M ref := chain set_distinct qs.
End QuerySet.

(** The rows a query denotes, over a table and the ORM's evaluation
    [holds r name v] of one lookup [name=v] on a row. *)
Section rows.
Context {row : Type} `{EqDecision row}.
Variable holds : row -> string -> pyval -> bool.
Variable table : list row.

Definition kw_holds (r : row) (kw : kwargs) : bool :=
  forallb (fun kv => holds r kv.1 kv.2) (map_to_list kw).

Fixpoint q_holds (r : row) (c : Q) : bool :=
  match c with
  | QAnd kw => kw_holds r kw
  | QOr a b => q_holds r a || q_holds r b
  end.

Definition condition_holds (r : row) (c : bool * Q) : bool :=
  if c.1 then negb (q_holds r c.2) else q_holds r c.2.

Definition rows (q : Query) : list row :=
  if is_empty q then []
  else
    let rs := List.filter (fun r => forallb (condition_holds r) (conditions q)) table in
    if is_distinct q then remove_dups rs else rs.
End rows.

End Orm.

(** ** The tree model *)

Module Tree.
Import Py.

(** Modelled from the spec: the "hierarchical-model collaborator
    exposing 'get all descendants including self'". The nodes below
    [n], in tree order. *)
Fixpoint descendants (n : node) : list node :=
  match n with
  | Node _ cs => flat_map (fun c => c :: descendants c) cs
  end.

(** [n.get_descendants(include_self=...)] *)
Definition get_descendants (n : node) (include_self : bool) : list node :=
  if include_self then n :: descendants n else descendants n.

Definition children (n : node) : list node :=
  match n with
  | Node _ cs => cs
  end.

(** [m] lies below [n]: a child of [n], or below one of its children. *)
Inductive below (n : node) : node -> Prop :=
| below_child c : In c (children n) -> below n c
| below_deeper c m : In c (children n) -> below c m -> below n m.

End Tree.

(** ** The django-filter base classes *)

Module DjangoFilters.
Import Py Orm.

(** [django_filters.constants.EMPTY_VALUES], the tuple
    [([], (), {}, "", None)]. *)
Definition EMPTY_VALUES : list pyval :=
  [PList []; PTuple []; PDict []; PStr ""; PNone].

Definition LOOKUP_SEP : string := "__".
Definition DEFAULT_LOOKUP_EXPR : string := "exact".

Module Filter.

(** The attributes of a filter object that the methods read. *)
Record t : Type := mk {
  field_name : string;
  lookup_expr : string;
  exclude : bool;
  distinct : bool;
  conjoined : bool;
  null_value : string;
  to_field_name : option string;
}.

(** [self.get_method(qs)]: [qs.exclude] if [self.exclude] else
    [qs.filter]. *)
Definition get_method (self : t) (qs : ref) : Q -> M ref :=
  fun c => if exclude self then QuerySet.exclude c qs else QuerySet.filter c qs.

(** The library's single-value [Filter.filter]: an empty value is
    a pass-through, any other adds the lookup
    [<field_name>__<lookup_expr> = value]. *)
Definition filter (self : t) (qs : ref) (value : pyval) : M ref :=
  if py_in value EMPTY_VALUES then ret qs
  else
    bind (if distinct self then QuerySet.distinct qs else ret qs) (fun qs =>
    let lookup := field_name self +:+ LOOKUP_SEP +:+ lookup_expr self in
    get_method self qs (QAnd {[ lookup := value ]})).

End Filter.

Module MultipleChoiceFilter.
Import Filter.

(** Lists and dicts cannot be members of a set. *)
Fixpoint hashable (v : pyval) : bool :=
  match v with
  | PList _ | PDict _ => false
  | PTuple l => forallb hashable l
  | _ => true
  end.

Fixpoint dedup (vs : list pyval) : list pyval :=
  match vs with
  | [] => []
  | v :: vs' => v :: List.filter (fun w => negb (py_eqb v w)) (dedup vs')
  end.

(** [set(vs)]; the members are kept in order of first occurrence
    (Python leaves the order open, and the filter built from them
    does not depend on it). *)
Definition py_set (vs : list pyval) : result (list pyval) :=
  if forallb hashable vs then Ok (dedup vs) else Raise TypeError.

(** [getattr(v, name)]: a tree node has its key under [pk] and
    [id]; the other values have no attribute of interest. *)
Definition getattr (v : pyval) (name : option string) : result pyval :=
  match name, v with
  | None, _ => Raise TypeError
  | Some a, PNode (Node pk _) =>
      if String.eqb a "pk" || String.eqb a "id" then Ok (PInt pk)
      else Raise AttributeError
  | Some _, _ => Raise AttributeError
  end.

(** The name of the lookup: it carries [lookup_expr] unless that is
    the default one. *)
Definition predicate_name (self : t) : string :=
  if negb (String.eqb (field_name self) "") &&
     negb (String.eqb (lookup_expr self) DEFAULT_LOOKUP_EXPR)
  then field_name self +:+ LOOKUP_SEP +:+ lookup_expr self
  else field_name self.

(** The library's [get_filter_predicate]: the value of the lookup is
    the [to_field_name] attribute of [v] when it has one, else [v]. *)
Definition get_filter_predicate (self : t) (v : pyval) : kwargs :=
  let name := predicate_name self in
  match getattr v (to_field_name self) with
  | Ok a => {[ name := a ]}
  | Raise _ => {[ name := v ]}
  end.

Fixpoint fold_M {A} (f : ref -> A -> M ref) (l : list A) (qs : ref) : M ref :=
  match l with
  | [] => ret qs
  | x :: l' => bind (f qs x) (fold_M f l')
  end.

(** The library's multi-value [filter]: nothing to do for an empty
    value; otherwise one predicate per distinct member (the null
    value standing for [None]), obtained from the object's own
    [get_filter_predicate] (the argument [gfp], which a subclass
    overrides), OR-ed into one [Q] object, or applied one after the
    other when [conjoined]; then [distinct()] if asked for. *)
Definition filter (gfp : t -> pyval -> kwargs)
    (self : t) (qs : ref) (value : pyval) : M ref :=
  if negb (truthy value) then ret qs
  else
    bind (lift (rbind (py_iter value) py_set)) (fun vs =>
    let predicates :=
      map (fun v => gfp self (if py_eqb v (PStr (null_value self)) then PNone else v)) vs in
    bind (if conjoined self
          then fold_M (fun qs p => get_method self qs (QAnd p)) predicates qs
          else get_method self qs
                 (fold_left (fun q p => q_or q (QAnd p)) predicates (QAnd ∅)))
         (fun qs => if distinct self then QuerySet.distinct qs else ret qs)).

End MultipleChoiceFilter.

End DjangoFilters.

(** ** [netbox/utilities/filters.py] *)

Module Filters.
Import Py Orm DjangoFilters.
Import Filter.

(** *** [multivalue_field_factory] *)

(** A form field class: how to build an instance with no arguments,
    and the three methods of the cleaning pipeline, each of which
    may raise [ValidationError]. *)
Record field_class : Type := mkField {
  __name__ : string;
  instance : Type;
  new : instance;
  to_python : instance -> pyval -> result pyval;
  run_validators : instance -> pyval -> result unit;
  validate : instance -> pyval -> result unit;
}.

(** [NewField], the subclass of [field_class] built inside the
    factory, under the name the factory gives it. Its instances are
    those of [field_class]; [super()] is [field_class]. *)
Definition multivalue_field_factory (field_class : field_class) : Filters.field_class :=
  {| __name__ := "MultiValue" +:+ __name__ field_class;
     instance := instance field_class;
     new := new field_class;
     to_python := fun self value =>
       if negb (truthy value) then Ok (PList [])
       else
         let field := new field_class in
         rbind (py_iter value) (fun vs =>
         rbind (map_r (to_python field_class field) (List.filter truthy vs)) (fun l =>
         Ok (PList l)));
     run_validators := fun self value =>
       rbind (py_iter value) (for_r (run_validators field_class self));
     validate := fun self value =>
       rbind (py_iter value) (for_r (validate field_class self));
  |}.

(** [Field.clean], the pipeline the form framework runs on the raw
    value of a parameter. *)
Definition clean (F : Filters.field_class) (self : instance F) (value : pyval) : result pyval :=
  rbind (to_python F self value) (fun value =>
  rbind (validate F self value) (fun _ =>
  rbind (run_validators F self value) (fun _ =>
  Ok value))).

(** *** Constructing a filter *)

(** What can go wrong while a filter object is built: a keyword
    argument that is read but was not given, an exception of one of
    the collaborators (of type [E]), or an exception of a builtin. *)
Inductive init_error (E : Type) : Type :=
| KeyError (key : string)
| Collaborator (e : E)
| Builtin (e : exn).
Arguments KeyError {E} key.
Arguments Collaborator {E} e.
Arguments Builtin {E} e.

Inductive outcome (E A : Type) : Type :=
| Done (a : A)
| Failed (e : init_error E).
Arguments Done {E A} a.
Arguments Failed {E A} e.

Definition obind {E A B} (o : outcome E A) (k : A -> outcome E B) : outcome E B :=
  match o with
  | Done a => k a
  | Failed e => Failed e
  end.

(** [kwargs[key]] *)
Definition getitem {E V} (kwargs : gmap string V) (key : string) : outcome E V :=
  match kwargs !! key with
  | Some v => Done v
  | None => Failed (KeyError key)
  end.

(** [key in kwargs] *)
Definition contains_key {V} (key : string) (kwargs : gmap string V) : bool :=
  match kwargs !! key with
  | Some _ => true
  | None => false
  end.

Definition of_result {E A} (r : result A) : outcome E A :=
  match r with
  | Ok a => Done a
  | Raise e => Failed (Builtin e)
  end.

(** An object as [isinstance] and [issubclass] see it: a class, given
    by the names of the classes it derives from (its own name first),
    or an instance of such a class. *)
Inductive pyobj : Type :=
| PClass (mro : list string)
| PInstance (mro : list string).

Definition derives_from (cls : string) (mro : list string) : bool :=
  existsb (String.eqb cls) mro.

(** [isinstance(o, cls)], for a model field class [cls]: a class
    object is an instance of its metaclass only. *)
Definition isinstance (o : pyobj) (cls : string) : bool :=
  match o with
  | PInstance mro => derives_from cls mro
  | PClass _ => false
  end.

(** [issubclass(o, cls)]: the first argument must be a class. *)
Definition issubclass (o : pyobj) (cls : string) : result bool :=
  match o with
  | PClass mro => Ok (derives_from cls mro)
  | PInstance _ => Raise TypeError
  end.

(** [a or b], where evaluating [b] may raise. *)
Definition or_else (a : bool) (b : result bool) : result bool :=
  if a then Ok true else b.

Inductive OpenApiTypes : Type :=
| INT
| FLOAT
| STR.

(** *** The filters *)

Module MultiValueArrayFilter.
Section methods.
(** [super().get_filter_predicate] *)
Variable super_get_filter_predicate : Filter.t -> pyval -> kwargs.

Definition get_filter_predicate (self : Filter.t) (v : pyval) : kwargs :=
  match v with
  | PNone => {[ field_name self := PNone ]}
  | _ => super_get_filter_predicate self v
  end.
End methods.

Section init.
Context {V S : Type}.
(** The string ['contains'], and [super().__init__]. *)
Variable contains : V.
Variable super_init : list V -> gmap string V -> S.

(** [__init__(self, *args, lookup_expr='contains', **kwargs)], on the
    positional and the keyword arguments of the call: [lookup_expr]
    is taken out of the keywords, defaulted, and passed on by name. *)
Definition __init__ (args : list V) (keywords : gmap string V) : S :=
  let lookup_expr := default contains (keywords !! "lookup_expr") in
  let kwargs := delete "lookup_expr" keywords in
  super_init args (<[ "lookup_expr" := lookup_expr ]> kwargs).
End init.
End MultiValueArrayFilter.

Module MultiValueMACAddressFilter.
Section methods.
(** [super().filter] *)
Variable super_filter : Filter.t -> ref -> pyval -> M ref.

Definition filter (self : Filter.t) (qs : ref) (value : pyval) : M ref :=
  try_except (super_filter self qs value) ValidationError (QuerySet.none qs).
End methods.
End MultiValueMACAddressFilter.

Module TreeNodeMultipleChoiceFilter.
Section methods.
(** [super().get_filter_predicate], and [super().filter], which
    calls back into the object's own [get_filter_predicate]. *)
Variable super_get_filter_predicate : Filter.t -> pyval -> kwargs.
Variable super_filter :
  (Filter.t -> pyval -> kwargs) -> Filter.t -> ref -> pyval -> M ref.

Definition get_filter_predicate (self : Filter.t) (v : pyval) : kwargs :=
  match v with
  | PNone => {[ field_name self +:+ "__isnull" := PBool true ]}
  | _ => super_get_filter_predicate self v
  end.

(** [node.get_descendants(include_self=True)]: only tree nodes
    have the method. *)
Definition call_get_descendants (node : pyval) : result pyval :=
  match node with
  | PNode n => Ok (PNodeSet (Tree.get_descendants n true))
  | _ => Raise AttributeError
  end.

Definition expand (node : pyval) : result pyval :=
  if negb (isinstance_str node) then call_get_descendants node else Ok node.

Definition filter (self : Filter.t) (qs : ref) (value : pyval) : M ref :=
  bind (lift (rbind (py_iter value) (map_r expand))) (fun value =>
  super_filter get_filter_predicate self qs (PList value)).
End methods.

Definition __get_openapi_type (field_type : pyobj) : result OpenApiTypes :=
  rbind (or_else (isinstance field_type "IntegerField")
                 (issubclass field_type "IntegerField")) (fun is_integer =>
  if is_integer then Ok INT
  else
    rbind (or_else (isinstance field_type "FloatField")
                   (issubclass field_type "FloatField")) (fun is_float =>
    if is_float then Ok FLOAT
    else Ok STR)).

Section init.
Context {V E S : Type}.
(** [queryset.model._meta.get_field(name)], as the classes the field
    found derives from; [build_basic_type]; the string ['']; and
    [super().__init__]. *)
Variable get_field : V -> V -> outcome E (list string).
Variable build_basic_type : OpenApiTypes -> gmap string V.
Variable empty_string : V.
Variable super_init : list V -> gmap string V -> outcome E S.

(** The class attribute [_spectacular_annotation = {}]. *)
Definition _spectacular_annotation : gmap string (gmap string V) := ∅.

(** [__init__(self, *args, **kwargs)]: the annotation the object has
    afterwards, and what [super().__init__] made of the arguments. *)
Definition __init__ (args : list V) (kwargs : gmap string V)
    : outcome E (gmap string (gmap string V) * S) :=
  obind
    (if contains_key "field_name" kwargs && contains_key "to_field_name" kwargs
     then
       obind (getitem kwargs "queryset") (fun queryset =>
       obind (getitem kwargs "to_field_name") (fun to_field_name =>
       obind (get_field queryset to_field_name) (fun to_field =>
       let field_type := PClass to_field in
       obind (of_result (__get_openapi_type field_type)) (fun openapi_type =>
       let field := build_basic_type openapi_type in
       obind (if contains_key "label" kwargs then getitem kwargs "label"
              else Done empty_string) (fun description =>
       Done {[ "field" := <[ "description" := description ]> field ]})))))
     else Done _spectacular_annotation)
    (fun annotation =>
    obind (super_init args kwargs) (fun s => Done (annotation, s))).
End init.
End TreeNodeMultipleChoiceFilter.

Module NullableCharFieldFilter.
Section methods.
(** [settings.FILTERS_NULL_CHOICE_VALUE] *)
Variable FILTERS_NULL_CHOICE_VALUE : string.
(** [super().filter] *)
Variable super_filter : Filter.t -> ref -> pyval -> M ref.

Definition filter (self : Filter.t) (qs : ref) (value : pyval) : M ref :=
  if negb (py_eqb value (PStr FILTERS_NULL_CHOICE_VALUE))
  then super_filter self qs value
  else
    bind (get_method self qs (QAnd {[ field_name self +:+ "__isnull" := PBool true ]})) (fun qs =>
    if distinct self then QuerySet.distinct qs else ret qs).
End methods.
End NullableCharFieldFilter.

Module NumericArrayFilter.
Section methods.
(** [super().filter] *)
Variable super_filter : Filter.t -> ref -> pyval -> M ref.

(** [if value: value = [value]]: the value after the rebinding. *)
Definition wrapped (value : pyval) : pyval :=
  if truthy value then PList [value] else value.

Definition filter (self : Filter.t) (qs : ref) (value : pyval) : M ref :=
  let value := wrapped value in
  super_filter self qs value.
End methods.
End NumericArrayFilter.

Module ContentTypeFilter.
Section methods.
(** The builtin [str.lower]. *)
Variable str_lower : string -> string.

(** [value.lower()]: a method of strings only. *)
Definition call_lower (value : pyval) : result string :=
  match value with
  | PStr s => Ok (str_lower s)
  | _ => Raise AttributeError
  end.

(** [a, b = pieces] *)
Definition unpack2 (pieces : list string) : result (string * string) :=
  match pieces with
  | [a; b] => Ok (a, b)
  | _ => Raise ValueError
  end.

Definition filter (self : Filter.t) (qs : ref) (value : pyval) : M ref :=
  if py_in value EMPTY_VALUES then ret qs
  else
    match rbind (call_lower value) (fun s => unpack2 (split "." s)) with
    | Ok (app_label, model) =>
        QuerySet.filter
          (QAnd (<[ field_name self +:+ "__model" := PStr model ]>
                   {[ field_name self +:+ "__app_label" := PStr app_label ]}))
          qs
    | Raise ValueError => QuerySet.none qs
    | Raise e => raise e
    end.
End methods.

End ContentTypeFilter.

End Filters.

(** ** A selection of nodes and strings *)

Module Selection.
Import Py.

(** What [TreeNodeMultipleChoiceFilter.filter] hands to
    [super().filter] in the place of an entry that is a string or a
    node: the value of [expand] on it. *)
Definition handed_over (v : pyval) : pyval :=
  match v with
  | PNode n => PNodeSet (Tree.get_descendants n true)
  | _ => v
  end.

End Selection.

(** ** Sample objects *)

Module Samples.
Import Py Orm DjangoFilters Filters.

(** The queryset [Model.objects.all()]. *)
Definition all_objects : Query := mkQuery [] false false.

(** Filters as a filter set declares them. *)
Definition object_type_filter : Filter.t :=
  Filter.mk "object_type" "exact" false false false "null" None.
Definition serial_filter : Filter.t :=
  Filter.mk "serial" "exact" false false false "null" None.
Definition asns_filter : Filter.t :=
  Filter.mk "asns" "contains" false false false "null" None.
Definition mac_address_filter : Filter.t :=
  Filter.mk "mac_address" "exact" false true false "null" None.
Definition region_filter : Filter.t :=
  Filter.mk "region" "in" false true false "null" None.

Definition is_hex_digit (c : ascii) : bool :=
  let n := N_of_ascii c in
  (((48 <=? n) && (n <=? 57)) || ((65 <=? n) && (n <=? 70)) || ((97 <=? n) && (n <=? 102)))%N.

Fixpoint all_chars (p : ascii -> bool) (s : string) : bool :=
  match s with
  | EmptyString => true
  | String c s' => p c && all_chars p s'
  end.

(** Six groups of two hexadecimal digits, separated by colons. *)
Definition is_mac_address (s : string) : bool :=
  let groups := split ":" s in
  Nat.eqb (length groups) 6 &&
  forallb (fun g => Nat.eqb (String.length g) 2 && all_chars is_hex_digit g) groups.

Definition check_mac_address (v : pyval) : result unit :=
  match v with
  | PStr s => if is_mac_address s then Ok tt else Raise ValidationError
  | _ => Raise ValidationError
  end.

(** The multi-value filter on a MAC-address column: building the
    lookup validates every member, and a member that is no MAC
    address raises [ValidationError]. *)
Definition mac_column_filter (self : Filter.t) (qs : ref) (value : pyval) : M ref :=
  if negb (truthy value) then ret qs
  else
    bind (lift (rbind (py_iter value) (for_r check_mac_address))) (fun _ =>
    MultipleChoiceFilter.filter MultipleChoiceFilter.get_filter_predicate self qs value).

Definition digit_value (c : ascii) : option Z :=
  let n := N_of_ascii c in
  if ((48 <=? n) && (n <=? 57))%N then Some (Z.of_N (n - 48)) else None.

Fixpoint parse_digits (s : string) (acc : Z) : option Z :=
  match s with
  | EmptyString => Some acc
  | String c s' =>
      match digit_value c with
      | Some d => parse_digits s' (10 * acc + d)
      | None => None
      end
  end.

(** An integer form field: [to_python] reads a string of digits and
    raises [ValidationError] on anything else; an instance is its
    [required] flag, which [validate] enforces. *)
Definition IntegerField : field_class :=
  {| __name__ := "IntegerField";
     instance := bool;
     new := true;
     to_python := fun self value =>
       match value with
       | PNone | PStr "" => Ok PNone
       | PInt z => Ok (PInt z)
       | PStr s =>
           match parse_digits s 0 with
           | Some z => Ok (PInt z)
           | None => Raise ValidationError
           end
       | _ => Raise ValidationError
       end;
     run_validators := fun self value => Ok tt;
     validate := fun self value =>
       if self && py_in value EMPTY_VALUES then Raise ValidationError else Ok tt;
  |}.

(** A form field for text that takes strings as they are and nothing
    else. *)
Definition TextField : field_class :=
  {| __name__ := "TextField";
     instance := unit;
     new := tt;
     to_python := fun self value =>
       match value with
       | PStr s => Ok (PStr s)
       | _ => Raise ValidationError
       end;
     run_validators := fun self value => Ok tt;
     validate := fun self value => Ok tt;
  |}.

(** A small tree of regions: Europe with France and Spain below it,
    and Madrid below Spain. *)
Definition madrid : node := Node 4 [].
Definition spain : node := Node 3 [madrid].
Definition france : node := Node 2 [].
Definition europe : node := Node 1 [france; spain].

(** Sites, each in a region, and how the ORM decides a lookup of a
    site's region in a queryset of regions. *)
Definition sites : list string := ["paris"; "madrid-dc"; "oslo"].

Definition region_of (site : string) : node :=
  if String.eqb site "paris" then france
  else if String.eqb site "madrid-dc" then madrid
  else Node 9 [].

Definition in_region (site : string) (region : node) : bool :=
  node_eqb (region_of site) region.

Definition site_holds (site : string) (name : string) (v : pyval) : bool :=
  match v with
  | PNodeSet regions => existsb (in_region site) regions
  | _ => false
  end.

(** Providers, each with its array of AS numbers, and how the ORM
    decides [asns__contains] on a provider: the array holds every
    number of the list looked up. *)
Definition providers : list string := ["acme"; "globex"].

Definition asns_of (provider : string) : list Z :=
  if String.eqb provider "acme" then [65000; 65001]%Z else [64512]%Z.

Definition provider_holds (provider : string) (name : string) (v : pyval) : bool :=
  match v with
  | PList vs =>
      String.eqb name "asns__contains" &&
      forallb (fun v => match v with
                        | PInt z => existsb (Z.eqb z) (asns_of provider)
                        | _ => false
                        end) vs
  | _ => false
  end.

(** Collaborators of the constructor, over Python values, with the
    name of the exception as the collaborators' error: [get_field]
    knows the fields [id] and [slug] of the model behind any
    queryset, [build_basic_type] gives the schema of a type, and
    [super().__init__] keeps the keyword arguments. *)
Definition region_get_field (queryset name : pyval) : outcome string (list string) :=
  match name with
  | PStr "id" => Done ["AutoField"; "IntegerField"; "Field"]
  | PStr "slug" => Done ["SlugField"; "CharField"; "Field"]
  | _ => Failed (Collaborator "FieldDoesNotExist")
  end.

Definition basic_type (t : OpenApiTypes) : gmap string pyval :=
  match t with
  | INT => {[ "type" := PStr "integer" ]}
  | FLOAT => <[ "format" := PStr "float" ]> {[ "type" := PStr "number" ]}
  | STR => {[ "type" := PStr "string" ]}
  end.

Definition keep_keywords (args : list pyval) (kwargs : gmap string pyval)
    : outcome string (gmap string pyval) :=
  Done kwargs.

(** The keyword arguments of a filter on regions by primary key. *)
Definition region_id_keywords : gmap string pyval :=
  {[ "field_name" := PStr "region"; "to_field_name" := PStr "id";
     "queryset" := PNodeSet [europe]; "label" := PStr "Region (ID)" ]}.

End Samples.

(** * Properties *)

(** ** Strings *)

Module PyFacts.
Import Py.

Lemma lower_ascii_idem c : lower_ascii (lower_ascii c) = lower_ascii c.
Proof. by destruct c as [[] [] [] [] [] [] [] []]. Qed.

Lemma lower_idem s : lower (lower s) = lower s.
Proof.
  induction s as [|c s IH]; simpl; [done|].
  by rewrite lower_ascii_idem, IH.
Qed.

Lemma lower_nonempty s : String.eqb (lower s) "" = String.eqb s "".
Proof. by destruct s. Qed.

(** Lower-casing neither creates nor removes a dot. *)
Lemma lower_ascii_dot c : Ascii.eqb (lower_ascii c) "." = Ascii.eqb c ".".
Proof. by destruct c as [[] [] [] [] [] [] [] []]. Qed.

Lemma count_char_lower s : count_char "." (lower s) = count_char "." s.
Proof.
  induction s as [|c s IH]; simpl; [done|].
  by rewrite lower_ascii_dot, IH.
Qed.

Lemma split_nonempty sep s : split sep s <> [].
Proof.
  destruct s as [|c s]; simpl; [done|].
  destruct (Ascii.eqb c sep); [done|].
  by destruct (split sep s).
Qed.

(** One piece more than there are separators. *)
Lemma length_split sep s : length (split sep s) = S (count_char sep s).
Proof.
  induction s as [|c s IH]; simpl; [done|].
  destruct (Ascii.eqb c sep); simpl.
  - by rewrite IH.
  - destruct (split sep s) eqn:E; simpl in *; [done|]. done.
Qed.

(** A string without the separator is its own single piece. *)
Lemma split_no_sep sep s : count_char sep s = 0%nat -> split sep s = [s].
Proof.
  induction s as [|c s IH]; simpl; [done|].
  destruct (Ascii.eqb c sep); [done|].
  intros H. by rewrite IH.
Qed.

Lemma append_inj_r (p a b : string) : p +:+ a = p +:+ b -> a = b.
Proof. induction p as [|c p IH]; simpl; [done|]. intros [= H]. auto. Qed.

Lemma map_r_Ok {A B} (f : A -> result B) l l' :
  map_r f l = Ok l' <-> Forall2 (fun x y => f x = Ok y) l l'.
Proof.
  revert l'. induction l as [|x l IH]; intros l'; simpl.
  - split; [intros [= <-]; constructor | by inversion 1].
  - destruct (f x) as [y|e] eqn:Ex; simpl.
    + destruct (map_r f l) as [ys|e] eqn:El; simpl.
      * split.
        -- intros [= <-]. constructor; [done|]. by apply IH.
        -- inversion 1 as [|? y' ? ys' Hy Hys]; subst.
           rewrite Ex in Hy. injection Hy as <-.
           apply IH in Hys. by injection Hys as <-.
      * split; [done|].
        inversion 1 as [|? y' ? ys' Hy Hys]; subst.
        apply IH in Hys. done.
    + split; [done|].
      inversion 1 as [|? y' ? ys' Hy Hys]; subst. by rewrite Ex in Hy.
Qed.

(** One member that raises makes the whole comprehension raise. *)
Lemma map_r_Raise {A B} (f : A -> result B) l x e :
  In x l -> f x = Raise e -> exists e', map_r f l = Raise e'.
Proof.
  induction l as [|y l IH]; simpl; [done|].
  intros [->|Hin] Hx.
  - rewrite Hx. by eexists.
  - destruct (f y); simpl; [|by eexists].
    destruct (IH Hin Hx) as [e' ->]. by eexists.
Qed.

Lemma for_r_Ok {A} (f : A -> result unit) l :
  for_r f l = Ok tt <-> Forall (fun x => f x = Ok tt) l.
Proof.
  induction l as [|x l IH]; simpl.
  - split; [constructor | done].
  - destruct (f x) as [[]|e] eqn:Ex; simpl.
    + rewrite IH. split; [by constructor | by inversion 1].
    + split; [done|]. inversion 1 as [|? ? Hx]; subst. by rewrite Ex in Hx.
Qed.

(** The loop raises what its first failing member raises. *)
Lemma for_r_Raise {A} (f : A -> result unit) l x e :
  In x l -> f x = Raise e -> exists e', for_r f l = Raise e'.
Proof.
  induction l as [|y l IH]; simpl; [done|].
  intros [->|Hin] Hx.
  - rewrite Hx. by eexists.
  - destruct (f y); simpl; [auto | by eexists].
Qed.

End PyFacts.

(** ** The queryset store *)

Module OrmFacts.
Import Py Orm.

Lemma preserves_ret {A} (a : A) : preserves (ret a).
Proof. by intros st. Qed.

Lemma preserves_raise {A} e : preserves (@raise A e).
Proof. by intros st. Qed.

Lemma preserves_bind {A B} (m : M A) (k : A -> M B) :
  preserves m -> (forall a, preserves (k a)) -> preserves (bind m k).
Proof.
  intros Hm Hk st. unfold bind. specialize (Hm st).
  destruct (m st) as [[a|e] st1]; simpl in *; [|done].
  etrans; [exact Hm | apply Hk].
Qed.

Lemma preserves_try_except {A} (m : M A) e (h : M A) :
  preserves m -> preserves h -> preserves (try_except m e h).
Proof.
  intros Hm Hh st. unfold try_except. specialize (Hm st).
  destruct (m st) as [[a|e'] st1]; simpl in *; [done|].
  destruct (decide (e' = e)); [|done].
  etrans; [exact Hm | apply Hh].
Qed.

Lemma preserves_chain f qs : preserves (chain f qs).
Proof.
  intros st. unfold chain.
  case_match; simpl; [by apply prefix_app_r | done].
Qed.

Lemma chain_live f qs st q :
  st !! qs = Some q -> chain f qs st = (Ok (length st), st ++ [f q]).
Proof. intros H. unfold chain. by rewrite H. Qed.

(** The reference a method returns is none of the old ones. *)
Lemma chain_fresh f qs st r st' :
  chain f qs st = (Ok r, st') -> st !! r = None /\ exists q, st !! qs = Some q /\ st' !! r = Some (f q).
Proof.
  unfold chain. case_match eqn:E; [|done].
  intros [= <- <-]. split; [by apply lookup_ge_None_2|].
  eexists. split; [done|].
  by apply list_lookup_middle.
Qed.

Section rows.
Context {row : Type} `{EqDecision row}.
Variable holds : row -> string -> pyval -> bool.
Variable table : list row.

Lemma kw_holds_spec r (kw : kwargs) :
  kw_holds holds r kw = true <->
  forall k v, kw !! k = Some v -> holds r k v = true.
Proof.
  unfold kw_holds. rewrite forallb_forall. split.
  - intros H k v Hk. apply (H (k, v)).
    apply list_elem_of_In. by apply elem_of_map_to_list.
  - intros H [k v] Hin. apply H.
    apply elem_of_map_to_list. by apply list_elem_of_In.
Qed.

Lemma kw_holds_singleton r k v :
  kw_holds holds r {[ k := v ]} = holds r k v.
Proof. unfold kw_holds. rewrite map_to_list_singleton. simpl. by rewrite andb_true_r. Qed.

Lemma kw_holds_pair r k1 v1 k2 v2 :
  k1 <> k2 ->
  kw_holds holds r (<[ k2 := v2 ]> {[ k1 := v1 ]}) = holds r k1 v1 && holds r k2 v2.
Proof.
  intros Hne. apply eq_true_iff_eq.
  rewrite kw_holds_spec, andb_true_iff. split.
  - intros H. split; apply H.
    + rewrite lookup_insert_ne by done. by rewrite lookup_singleton_eq.
    + by rewrite lookup_insert_eq.
  - intros [H1 H2] k v.
    destruct (decide (k = k2)) as [->|Hk].
    + rewrite lookup_insert_eq. by intros [= <-].
    + rewrite lookup_insert_ne by done.
      destruct (decide (k = k1)) as [->|Hk1].
      * rewrite lookup_singleton_eq. by intros [= <-].
      * by rewrite lookup_singleton_ne.
Qed.

Lemma elem_of_rows r q :
  r ∈ rows holds table q <->
  is_empty q = false /\ r ∈ table /\
  forall c, c ∈ conditions q -> condition_holds holds r c = true.
Proof.
  unfold rows. destruct (is_empty q).
  - split; [by intros ?%elem_of_nil | by intros [? _]].
  - assert (r ∈ List.filter (fun r => forallb (condition_holds holds r) (conditions q)) table
            <-> r ∈ table /\ forall c, c ∈ conditions q -> condition_holds holds r c = true) as Hf.
    { rewrite list_elem_of_In, filter_In, forallb_forall, <- list_elem_of_In.
      split; intros [? H]; (split; [done|]); intros c Hc; apply H;
        by apply list_elem_of_In. }
    destruct (is_distinct q); [rewrite elem_of_remove_dups|]; rewrite Hf; tauto.
Qed.

(** Adding a condition narrows the rows to those that satisfy it. *)
Lemma rows_add_condition r negated c q :
  r ∈ rows holds table (add_condition negated c q) <->
  r ∈ rows holds table q /\ condition_holds holds r (negated, c) = true.
Proof.
  rewrite !elem_of_rows. simpl. split.
  - intros (He & Ht & Hc). repeat split; [done..| |].
    + intros c' Hc'. apply Hc. apply elem_of_app. by left.
    + apply Hc. apply elem_of_app. right. by apply list_elem_of_singleton.
  - intros ((He & Ht & Hc) & Hn). repeat split; [done..|].
    intros c' [Hc'|Hc']%elem_of_app; [by apply Hc|].
    apply list_elem_of_singleton in Hc'. by subst.
Qed.

Lemma rows_set_distinct r q :
  r ∈ rows holds table (set_distinct q) <-> r ∈ rows holds table q.
Proof. by rewrite !elem_of_rows. Qed.

Lemma rows_set_empty q : rows holds table (set_empty q) = [].
Proof. done. Qed.
End rows.

End OrmFacts.

(** ** [ContentTypeFilter] *)

Module ContentTypeFacts.
Import Py Orm DjangoFilters Filters PyFacts OrmFacts.
Import Filter.

Lemma py_in_EMPTY_VALUES_str s :
  py_in (PStr s) EMPTY_VALUES = String.eqb s "".
Proof. unfold py_in. simpl. by rewrite !orb_false_r. Qed.

(** ASCII lower-casing has the two properties asked of [str.lower]. *)
Lemma lower_spec_lower : lower_spec lower.
Proof. split; [done | apply count_char_lower]. Qed.

Lemma is_ascii_lower s : is_ascii (lower s) = is_ascii s.
Proof.
  induction s as [|c s IH]; simpl; [done|]. rewrite IH. f_equal.
  by destruct c as [[] [] [] [] [] [] [] []].
Qed.

(** What the filter does with a non-empty string, by the number of
    pieces the lower-cased value splits into. *)
Lemma filter_str str_lower self qs s :
  s <> "" ->
  ContentTypeFilter.filter str_lower self qs (PStr s) =
  match split "." (str_lower s) with
  | [app_label; model] =>
      QuerySet.filter
        (QAnd (<[ field_name self +:+ "__model" := PStr model ]>
                 {[ field_name self +:+ "__app_label" := PStr app_label ]}))
        qs
  | _ => QuerySet.none qs
  end.
Proof.
  intros Hs. unfold ContentTypeFilter.filter.
  rewrite py_in_EMPTY_VALUES_str.
  destruct (String.eqb_spec s ""); [done|]. simpl.
  destruct (split "." (str_lower s)) as [|a [|b [|c l]]]; done.
Qed.

(** A value with no dot, or with more than one, matches nothing. *)
Lemma filter_not_one_dot str_lower self qs s :
  lower_spec str_lower ->
  s <> "" -> count_char "." s <> 1%nat ->
  ContentTypeFilter.filter str_lower self qs (PStr s) = QuerySet.none qs.
Proof.
  intros Hlow Hs Hc. rewrite filter_str by done.
  pose proof (length_split "." (str_lower s)) as Hl.
  rewrite (lower_keeps_dots _ Hlow) in Hl.
  destruct (split "." (str_lower s)) as [|a [|b [|c l]]]; simpl in Hl; try done.
  lia.
Qed.

(** On an ASCII value the pieces are those of its ASCII lower-casing. *)
Lemma filter_str_ascii str_lower self qs s :
  lower_spec str_lower -> is_ascii s = true -> s <> "" ->
  ContentTypeFilter.filter str_lower self qs (PStr s) =
  match split "." (lower s) with
  | [app_label; model] =>
      QuerySet.filter
        (QAnd (<[ field_name self +:+ "__model" := PStr model ]>
                 {[ field_name self +:+ "__app_label" := PStr app_label ]}))
        qs
  | _ => QuerySet.none qs
  end.
Proof.
  intros Hlow Ha Hs. rewrite filter_str by done.
  by rewrite (lower_on_ascii _ Hlow s Ha).
Qed.

Lemma keys_differ (p : string) : p +:+ "__app_label" <> p +:+ "__model".
Proof. by intros ?%append_inj_r. Qed.

End ContentTypeFacts.

Import Py Orm DjangoFilters Filters PyFacts OrmFacts.

(** C1: whatever [str.lower] does beyond ASCII, on a live queryset
    [ContentTypeFilter.filter] with the value "dcim.site" returns a
    copy narrowed to the rows whose relation has app label "dcim" and
    model "site"; with a non-empty value that has no dot (such as
    "invalid") it returns [qs.none()], which has no rows; with an
    empty value it returns [qs] itself, unfiltered. *)
Theorem ContentTypeFilter_filter_cases
    (str_lower : string -> string)
    (self : Filter.t) (st : store) (qs : ref) (q : Query) :
  lower_spec str_lower ->
  st !! qs = Some q ->
  let name := Filter.field_name self in
  let c := QAnd (<[ name +:+ "__model" := PStr "site" ]>
                   {[ name +:+ "__app_label" := PStr "dcim" ]}) in
  (ContentTypeFilter.filter str_lower self qs (PStr "dcim.site") st
     = (Ok (length st), st ++ [add_condition false c q]) /\
   forall (row : Type) (Heq : EqDecision row)
          (holds : row -> string -> pyval -> bool) (table : list row) (r : row),
     r ∈ rows holds table (add_condition false c q) <->
     r ∈ rows holds table q /\
     holds r (name +:+ "__app_label") (PStr "dcim") = true /\
     holds r (name +:+ "__model") (PStr "site") = true) /\
  (ContentTypeFilter.filter str_lower self qs (PStr "invalid") st = QuerySet.none qs st /\
   forall s, s <> "" -> count_char "." s = 0%nat ->
     ContentTypeFilter.filter str_lower self qs (PStr s) st = QuerySet.none qs st /\
     QuerySet.none qs st = (Ok (length st), st ++ [set_empty q]) /\
     forall (row : Type) (Heq : EqDecision row)
            (holds : row -> string -> pyval -> bool) (table : list row),
       rows holds table (set_empty q) = []) /\
  (forall v, py_in v EMPTY_VALUES = true ->
     ContentTypeFilter.filter str_lower self qs v st = (Ok qs, st)).
Proof.
  intros Hlow Hlive name c. split; [split|split; [split|]].
  - rewrite (ContentTypeFacts.filter_str_ascii _ _ _ _ Hlow) by done. simpl.
    unfold QuerySet.filter. by rewrite (chain_live _ _ _ _ Hlive).
  - intros row Heq holds table r.
    rewrite rows_add_condition. unfold condition_holds, c. simpl.
    rewrite kw_holds_pair by apply ContentTypeFacts.keys_differ.
    rewrite andb_true_iff. tauto.
  - by rewrite (ContentTypeFacts.filter_not_one_dot _ _ _ _ Hlow).
  - intros s Hs Hc. split; [|split].
    + rewrite (ContentTypeFacts.filter_not_one_dot _ _ _ _ Hlow); [done..|]. by rewrite Hc.
    + unfold QuerySet.none. by rewrite (chain_live _ _ _ _ Hlive).
    + done.
  - intros v Hv. unfold ContentTypeFilter.filter. by rewrite Hv.
Qed.

Lemma ContentTypeFilter_filter_cases_witness :
  lower_spec lower /\
  [Samples.all_objects] !! 0%nat = Some Samples.all_objects /\
  ContentTypeFilter.filter lower Samples.object_type_filter 0%nat (PStr "dcim.site")
    [Samples.all_objects]
  = (Ok 1%nat,
     [Samples.all_objects;
      mkQuery [(false, QAnd (<[ "object_type__model" := PStr "site" ]>
                               {[ "object_type__app_label" := PStr "dcim" ]}))]
              false false]).
Proof.
  split; [apply ContentTypeFacts.lower_spec_lower|]. split; [reflexivity|].
  exact (proj1 (proj1 (ContentTypeFilter_filter_cases lower Samples.object_type_filter
                         [Samples.all_objects] 0%nat Samples.all_objects
                         ContentTypeFacts.lower_spec_lower eq_refl))).
Defined.

(** C8: the value is lower-cased before it is split and matched: for
    every non-empty value the filter works on the pieces of
    [value.lower()]; both "DCIM.Site" and "dcim.site" make it call
    [qs.filter] with app label "dcim" and model "site", so they give
    the same queryset, with the rows of [qs] that satisfy both
    lookups; and two ASCII values that differ in case only are
    filtered alike. *)
Theorem ContentTypeFilter_filter_lowercases
    (str_lower : string -> string)
    (self : Filter.t) (qs : ref) (st : store) :
  lower_spec str_lower ->
  let name := Filter.field_name self in
  let dcim_site := QAnd (<[ name +:+ "__model" := PStr "site" ]>
                           {[ name +:+ "__app_label" := PStr "dcim" ]}) in
  (forall s : string, s <> "" ->
     ContentTypeFilter.filter str_lower self qs (PStr s) st
     = match split "." (str_lower s) with
       | [app_label; model] =>
           QuerySet.filter
             (QAnd (<[ name +:+ "__model" := PStr model ]>
                      {[ name +:+ "__app_label" := PStr app_label ]}))
             qs st
       | _ => QuerySet.none qs st
       end) /\
  ContentTypeFilter.filter str_lower self qs (PStr "DCIM.Site") st
    = QuerySet.filter dcim_site qs st /\
  ContentTypeFilter.filter str_lower self qs (PStr "dcim.site") st
    = QuerySet.filter dcim_site qs st /\
  (forall q, st !! qs = Some q ->
     ContentTypeFilter.filter str_lower self qs (PStr "DCIM.Site") st
     = (Ok (length st), st ++ [add_condition false dcim_site q]) /\
     forall (row : Type) (Heq : EqDecision row)
            (holds : row -> string -> pyval -> bool) (table : list row) (r : row),
       r ∈ rows holds table (add_condition false dcim_site q) <->
       r ∈ rows holds table q /\
       holds r (name +:+ "__app_label") (PStr "dcim") = true /\
       holds r (name +:+ "__model") (PStr "site") = true) /\
  (forall s t : string,
     is_ascii s = true -> is_ascii t = true -> lower s = lower t ->
     ContentTypeFilter.filter str_lower self qs (PStr s) st
     = ContentTypeFilter.filter str_lower self qs (PStr t) st).
Proof.
  intros Hlow name dcim_site.
  assert (Hupper : ContentTypeFilter.filter str_lower self qs (PStr "DCIM.Site") st
                   = QuerySet.filter dcim_site qs st).
  { by rewrite (ContentTypeFacts.filter_str_ascii _ _ _ _ Hlow). }
  split; [|split; [|split; [|split]]].
  - intros s Hs. rewrite ContentTypeFacts.filter_str by done.
    by destruct (split "." (str_lower s)) as [|a [|b [|c l]]].
  - exact Hupper.
  - by rewrite (ContentTypeFacts.filter_str_ascii _ _ _ _ Hlow).
  - intros q Hlive. split.
    + rewrite Hupper. unfold QuerySet.filter. by rewrite (chain_live _ _ _ _ Hlive).
    + intros row Heq holds table r.
      rewrite rows_add_condition. unfold condition_holds, dcim_site. simpl.
      rewrite kw_holds_pair by apply ContentTypeFacts.keys_differ.
      rewrite andb_true_iff. tauto.
  - intros s t Hs Ht Heq.
    destruct (String.eqb_spec s "") as [->|Hsne].
    + destruct t; [done|discriminate].
    + assert (t <> "") as Htne by (intros ->; by destruct s).
      rewrite !(ContentTypeFacts.filter_str_ascii _ _ _ _ Hlow) by done.
      by rewrite Heq.
Qed.

Lemma ContentTypeFilter_filter_lowercases_witness :
  lower_spec lower /\
  ContentTypeFilter.filter lower Samples.object_type_filter 0%nat (PStr "DCIM.Site")
    [Samples.all_objects]
  = QuerySet.filter
      (QAnd (<[ "object_type__model" := PStr "site" ]>
               {[ "object_type__app_label" := PStr "dcim" ]}))
      0%nat [Samples.all_objects].
Proof.
  split; [apply ContentTypeFacts.lower_spec_lower|].
  exact (proj1 (proj2 (ContentTypeFilter_filter_lowercases lower
                         Samples.object_type_filter 0%nat [Samples.all_objects]
                         ContentTypeFacts.lower_spec_lower))).
Defined.

(** ** [multivalue_field_factory] *)

Module FieldFacts.

(** Among raw strings, the entries that survive are the non-empty
    ones. *)
Lemma filter_truthy_strings (ss : list string) :
  List.filter truthy (map PStr ss)
  = map PStr (List.filter (fun s => negb (String.eqb s "")) ss).
Proof.
  induction ss as [|s ss IH]; simpl; [done|].
  destruct (String.eqb s ""); simpl; by rewrite IH.
Qed.

Lemma to_python_list (F : field_class) (self : instance F) (vs : list pyval) :
  to_python (multivalue_field_factory F) self (PList vs)
  = rbind (map_r (to_python F (new F)) (List.filter truthy vs)) (fun l => Ok (PList l)).
Proof. simpl. by destruct vs. Qed.

Lemma result_cases {A} (r : result A) : (exists a, r = Ok a) \/ (exists e, r = Raise e).
Proof. destruct r; eauto. Qed.

(** What a comprehension or a loop raises, one of its members raised. *)
Lemma map_r_Raise_inv {A B} (f : A -> result B) l e :
  map_r f l = Raise e -> exists x, In x l /\ f x = Raise e.
Proof.
  induction l as [|y l IH]; simpl; [done|].
  destruct (f y) as [z|e'] eqn:Ey; simpl.
  - destruct (map_r f l) as [zs|e'] eqn:El; simpl; [done|].
    intros [= ->]. destruct (IH eq_refl) as (x & Hx & Hfx). eauto.
  - intros [= ->]. eauto.
Qed.

Lemma for_r_Raise_inv {A} (f : A -> result unit) l e :
  for_r f l = Raise e -> exists x, In x l /\ f x = Raise e.
Proof.
  induction l as [|y l IH]; simpl; [done|].
  destruct (f y) as [[]|e'] eqn:Ey; simpl.
  - intros H. destruct (IH H) as (x & Hx & Hfx). eauto.
  - intros [= ->]. eauto.
Qed.

End FieldFacts.

(** C2: the field built by [multivalue_field_factory F] converts a
    list of raw strings by dropping the empty ones and coercing each
    of the others with [to_python] of a fresh [F()], and validates
    each coerced value on its own; cleaning succeeds exactly when
    every surviving entry coerces and passes both checks; when it
    raises, it raises what the field raised on one entry, so one
    invalid entry makes the whole parameter raise that entry's
    validation error; an empty or missing input converts to the empty
    list. *)
Theorem multivalue_field_factory_per_value
    (F : field_class) (self : instance F) (ss : list string) :
  let MV := multivalue_field_factory F in
  let raw := PList (map PStr ss) in
  let kept := map PStr (List.filter (fun s => negb (String.eqb s "")) ss) in
  (forall ws, to_python MV self raw = Ok ws <->
     exists l, ws = PList l /\ Forall2 (fun v w => to_python F (new F) v = Ok w) kept l) /\
  (forall l, validate MV self (PList l) = Ok tt <->
     Forall (fun w => validate F self w = Ok tt) l) /\
  (forall l, run_validators MV self (PList l) = Ok tt <->
     Forall (fun w => run_validators F self w = Ok tt) l) /\
  (forall ws, clean MV self raw = Ok ws <->
     exists l, ws = PList l /\
       Forall2 (fun v w => to_python F (new F) v = Ok w) kept l /\
       Forall (fun w => validate F self w = Ok tt) l /\
       Forall (fun w => run_validators F self w = Ok tt) l) /\
  (forall e, clean MV self raw = Raise e ->
     (exists v, In v kept /\ to_python F (new F) v = Raise e) \/
     (exists l w, to_python MV self raw = Ok (PList l) /\ In w l /\
        (validate F self w = Raise e \/ run_validators F self w = Raise e))) /\
  (forall v e, In v kept -> to_python F (new F) v = Raise e ->
     exists v' e', In v' kept /\ to_python F (new F) v' = Raise e' /\
                   clean MV self raw = Raise e') /\
  (forall l w e, to_python MV self raw = Ok (PList l) -> In w l ->
     validate F self w = Raise e \/ run_validators F self w = Raise e ->
     exists w' e', In w' l /\
       (validate F self w' = Raise e' \/ run_validators F self w' = Raise e') /\
       clean MV self raw = Raise e') /\
  ((forall v e, In v kept -> to_python F (new F) v = Raise e -> e = ValidationError) ->
   (forall w e, validate F self w = Raise e -> e = ValidationError) ->
   (forall w e, run_validators F self w = Raise e -> e = ValidationError) ->
   (forall e, clean MV self raw = Raise e -> e = ValidationError) /\
   (forall v, In v kept -> to_python F (new F) v = Raise ValidationError ->
      clean MV self raw = Raise ValidationError) /\
   (forall l w, to_python MV self raw = Ok (PList l) -> In w l ->
      validate F self w = Raise ValidationError \/
      run_validators F self w = Raise ValidationError ->
      clean MV self raw = Raise ValidationError)) /\
  to_python MV self (PList []) = Ok (PList []) /\
  to_python MV self PNone = Ok (PList []).
Proof.
  intros MV raw kept.
  assert (Hconv : forall ws, to_python MV self raw = Ok ws <->
     exists l, ws = PList l /\ Forall2 (fun v w => to_python F (new F) v = Ok w) kept l).
  { intros ws. unfold MV, raw, kept.
    rewrite FieldFacts.to_python_list, FieldFacts.filter_truthy_strings.
    destruct (map_r _ _) as [l|e] eqn:E; simpl.
    - apply map_r_Ok in E. split.
      + intros [= <-]. eauto.
      + intros (l' & -> & Hl').
        apply map_r_Ok in E, Hl'. rewrite E in Hl'. by injection Hl' as ->.
    - split; [done|]. intros (l' & -> & Hl').
      apply map_r_Ok in Hl'. by rewrite E in Hl'. }
  assert (Hval : forall l, validate MV self (PList l) = Ok tt <->
     Forall (fun w => validate F self w = Ok tt) l).
  { intros l. simpl. apply for_r_Ok. }
  assert (Hrun : forall l, run_validators MV self (PList l) = Ok tt <->
     Forall (fun w => run_validators F self w = Ok tt) l).
  { intros l. simpl. apply for_r_Ok. }
  assert (Hclean : forall ws, clean MV self raw = Ok ws <->
     exists l, ws = PList l /\
       Forall2 (fun v w => to_python F (new F) v = Ok w) kept l /\
       Forall (fun w => validate F self w = Ok tt) l /\
       Forall (fun w => run_validators F self w = Ok tt) l).
  { intros ws. unfold clean, rbind.
    destruct (to_python MV self raw) as [ws'|e] eqn:E.
    - destruct (proj1 (Hconv ws') eq_refl) as (l & -> & Hl).
      destruct (validate MV self (PList l)) as [[]|e] eqn:Ev.
      + destruct (run_validators MV self (PList l)) as [[]|e] eqn:Er.
        * apply Hval in Ev. apply Hrun in Er. split.
          -- intros [= <-]. eauto 6.
          -- intros (l' & -> & Hl' & _).
             apply map_r_Ok in Hl, Hl'. rewrite Hl in Hl'. by injection Hl' as ->.
        * split; [done|]. intros (l' & -> & Hl' & _ & Hr).
          apply map_r_Ok in Hl, Hl'. rewrite Hl in Hl'. injection Hl' as <-.
          apply Hrun in Hr. by rewrite Er in Hr.
      + split; [done|]. intros (l' & -> & Hl' & Hv & _).
        apply map_r_Ok in Hl, Hl'. rewrite Hl in Hl'. injection Hl' as <-.
        apply Hval in Hv. by rewrite Ev in Hv.
    - split; [done|]. intros (l' & -> & Hl' & _).
      assert (@Raise pyval e = Ok (PList l')) as E' by (apply Hconv; eauto).
      done. }
  assert (Hraise : forall e, clean MV self raw = Raise e ->
     (exists v, In v kept /\ to_python F (new F) v = Raise e) \/
     (exists l w, to_python MV self raw = Ok (PList l) /\ In w l /\
        (validate F self w = Raise e \/ run_validators F self w = Raise e))).
  { intros e. unfold clean.
    destruct (to_python MV self raw) as [ws|e0] eqn:E; simpl.
    - destruct (proj1 (Hconv ws) eq_refl) as (l & -> & _).
      intros H. right. exists l. simpl in H.
      destruct (for_r (validate F self) l) as [[]|e1] eqn:Ev; simpl in H.
      + destruct (for_r (run_validators F self) l) as [[]|e2] eqn:Er; simpl in H; [done|].
        injection H as ->.
        destruct (FieldFacts.for_r_Raise_inv _ _ _ Er) as (w & Hw & Hfw). eauto 6.
      + injection H as ->.
        destruct (FieldFacts.for_r_Raise_inv _ _ _ Ev) as (w & Hw & Hfw). eauto 6.
    - intros [= ->]. left. revert E. unfold MV, raw.
      rewrite FieldFacts.to_python_list, FieldFacts.filter_truthy_strings. fold kept.
      destruct (map_r _ kept) as [l|e1] eqn:Em; simpl; [done|].
      intros [= ->]. by apply FieldFacts.map_r_Raise_inv. }
  assert (Hbad1 : forall v e, In v kept -> to_python F (new F) v = Raise e ->
     exists v' e', In v' kept /\ to_python F (new F) v' = Raise e' /\
                   clean MV self raw = Raise e').
  { intros v e Hin Hv.
    destruct (FieldFacts.result_cases (clean MV self raw)) as [[ws Hok]|[e' He]].
    - apply Hclean in Hok as (l & -> & Hl & _). apply map_r_Ok in Hl.
      destruct (map_r_Raise _ _ _ _ Hin Hv) as [e' He']. by rewrite Hl in He'.
    - destruct (Hraise e' He) as [(v' & Hv' & He')|(l & w & Hl & _)]; [eauto|].
      apply Hconv in Hl as (l' & [= <-] & Hl'). apply map_r_Ok in Hl'.
      destruct (map_r_Raise _ _ _ _ Hin Hv) as [e'' He'']. by rewrite Hl' in He''. }
  assert (Hbad2 : forall l w e, to_python MV self raw = Ok (PList l) -> In w l ->
     validate F self w = Raise e \/ run_validators F self w = Raise e ->
     exists w' e', In w' l /\
       (validate F self w' = Raise e' \/ run_validators F self w' = Raise e') /\
       clean MV self raw = Raise e').
  { intros l w e Hl Hin Hbad.
    destruct (FieldFacts.result_cases (clean MV self raw)) as [[ws Hok]|[e' He]].
    - apply Hclean in Hok as (l' & -> & Hl' & Hv & Hr).
      assert (to_python MV self raw = Ok (PList l')) as E' by (apply Hconv; eauto).
      rewrite Hl in E'. injection E' as <-.
      rewrite Forall_forall in Hv, Hr. apply list_elem_of_In in Hin.
      destruct Hbad as [Hb|Hb];
        [rewrite (Hv _ Hin) in Hb | rewrite (Hr _ Hin) in Hb]; done.
    - destruct (Hraise e' He) as [(v' & Hv' & He')|(l' & w' & Hl' & Hw' & Hb')].
      + apply Hconv in Hl as (l' & _ & Hl'). apply map_r_Ok in Hl'.
        destruct (map_r_Raise _ _ _ _ Hv' He') as [e'' He'']. by rewrite Hl' in He''.
      + rewrite Hl in Hl'. injection Hl' as <-. eauto 6. }
  split; [exact Hconv|]. split; [exact Hval|]. split; [exact Hrun|].
  split; [exact Hclean|]. split; [exact Hraise|]. split; [exact Hbad1|].
  split; [exact Hbad2|]. split; [|by split].
  intros Hto Hva Hru.
  assert (Honly : forall e, clean MV self raw = Raise e -> e = ValidationError).
  { intros e He. destruct (Hraise e He) as [(v & Hv & Hfv)|(l & w & _ & _ & [Hb|Hb])];
      eauto. }
  split; [exact Honly|]. split.
  - intros v Hin Hv. destruct (Hbad1 v _ Hin Hv) as (v' & e' & _ & _ & He').
    by rewrite He', (Honly e' He').
  - intros l w Hl Hin Hbad.
    assert (exists e, validate F self w = Raise e \/ run_validators F self w = Raise e)
      as [e Hbad'] by (destruct Hbad; eauto).
    destruct (Hbad2 l w e Hl Hin Hbad') as (w' & e' & _ & _ & He').
    by rewrite He', (Honly e' He').
Qed.

(** ** The base classes *)

Module FilterFacts.
Import Filter.

Lemma get_method_live self qs c st q :
  st !! qs = Some q ->
  get_method self qs c st = (Ok (length st), st ++ [add_condition (exclude self) c q]).
Proof.
  intros H. unfold get_method, QuerySet.exclude, QuerySet.filter.
  destruct (exclude self); by apply chain_live.
Qed.

(** [get_method(qs)] with a condition, then [distinct()] if the filter
    asks for it: the new queryset, and where it lives. *)
Lemma get_method_then_distinct_live self qs c st q :
  st !! qs = Some q ->
  exists (r : ref) (st' : store),
    bind (get_method self qs c)
         (fun qs => if distinct self then QuerySet.distinct qs else ret qs) st
    = (Ok r, st') /\
    st `prefix_of` st' /\ st !! r = None /\
    st' !! r = Some (if distinct self
                     then set_distinct (add_condition (exclude self) c q)
                     else add_condition (exclude self) c q).
Proof.
  intros Hlive. unfold bind. rewrite (get_method_live _ _ _ _ _ Hlive).
  unfold QuerySet.distinct. destruct (distinct self).
  - rewrite (chain_live _ _ _ (add_condition (exclude self) c q))
      by by apply list_lookup_middle.
    eexists _, _. split; [done|]. split; [|split].
    + rewrite <- app_assoc. by apply prefix_app_r.
    + apply lookup_ge_None_2. rewrite length_app. simpl. lia.
    + by apply list_lookup_middle.
  - eexists _, _. split; [done|]. split; [|split].
    + by apply prefix_app_r.
    + by apply lookup_ge_None_2.
    + by apply list_lookup_middle.
Qed.

(** The library's single-value filter on a value that is not empty:
    [distinct()] first if asked for, then the lookup. *)
Lemma Filter_filter_live self qs value st q :
  st !! qs = Some q -> py_in value EMPTY_VALUES = false ->
  exists (r : ref) (st' : store),
    Filter.filter self qs value st = (Ok r, st') /\
    st `prefix_of` st' /\ st !! r = None /\
    st' !! r = Some (add_condition (exclude self)
                       (QAnd {[ field_name self +:+ LOOKUP_SEP +:+ lookup_expr self := value ]})
                       (if distinct self then set_distinct q else q)).
Proof.
  intros Hlive Hne. unfold Filter.filter. rewrite Hne. unfold bind.
  destruct (distinct self).
  - unfold QuerySet.distinct. rewrite (chain_live _ _ _ _ Hlive).
    rewrite (FilterFacts.get_method_live _ _ _ _ (set_distinct q))
      by by apply list_lookup_middle.
    eexists _, _. split; [done|]. split; [|split].
    + rewrite <- app_assoc. by apply prefix_app_r.
    + apply lookup_ge_None_2. rewrite length_app. simpl. lia.
    + by apply list_lookup_middle.
  - unfold ret. rewrite (FilterFacts.get_method_live _ _ _ _ _ Hlive).
    eexists _, _. split; [done|]. split; [|split].
    + by apply prefix_app_r.
    + by apply lookup_ge_None_2.
    + by apply list_lookup_middle.
Qed.

End FilterFacts.

Lemma multivalue_field_factory_per_value_witness :
  In (PStr "x") (map PStr (List.filter (fun s => negb (String.eqb s "")) ["1"; ""; "x"])) /\
  to_python Samples.IntegerField (new Samples.IntegerField) (PStr "x") = Raise ValidationError /\
  (forall v e,
     In v (map PStr (List.filter (fun s => negb (String.eqb s "")) ["1"; ""; "x"])) ->
     to_python Samples.IntegerField (new Samples.IntegerField) v = Raise e ->
     e = ValidationError) /\
  (forall w e, validate Samples.IntegerField false w = Raise e -> e = ValidationError) /\
  (forall w e, run_validators Samples.IntegerField false w = Raise e -> e = ValidationError) /\
  clean (multivalue_field_factory Samples.IntegerField) false
    (PList (map PStr ["1"; ""; "x"])) = Raise ValidationError.
Proof.
  assert (H1 : forall v e,
     In v (map PStr (List.filter (fun s => negb (String.eqb s "")) ["1"; ""; "x"])) ->
     to_python Samples.IntegerField (new Samples.IntegerField) v = Raise e ->
     e = ValidationError).
  { intros v e [<-|[<-|[]]]; simpl; [done|]. by intros [= <-]. }
  assert (H2 : forall w e,
     validate Samples.IntegerField false w = Raise e -> e = ValidationError) by done.
  assert (H3 : forall w e,
     run_validators Samples.IntegerField false w = Raise e -> e = ValidationError) by done.
  split; [simpl; tauto|]. split; [reflexivity|].
  split; [exact H1|]. split; [exact H2|]. split; [exact H3|].
  apply (proj1 (proj2 (proj1 (proj2 (proj2 (proj2 (proj2 (proj2 (proj2 (proj2
    (multivalue_field_factory_per_value Samples.IntegerField false ["1"; ""; "x"]))))))))
    H1 H2 H3)) (PStr "x")).
  - simpl. tauto.
  - reflexivity.
Defined.

(** The multi-value integer field on two numbers and an empty entry. *)
Example MultiValueIntegerField_clean :
  clean (multivalue_field_factory Samples.IntegerField) false
    (PList [PStr "1"; PStr ""; PStr "22"])
  = Ok (PList [PInt 1; PInt 22]) /\
  __name__ (multivalue_field_factory Samples.IntegerField) = "MultiValueIntegerField".
Proof. split; reflexivity. Qed.

(** ** [NullableCharFieldFilter] *)

(** C3: on a live queryset, [NullableCharFieldFilter.filter] given the
    configured null value passes the predicate
    [<field_name>__isnull = True] to [qs.filter] (to [qs.exclude] for
    an excluding filter) and applies [distinct()] if the filter asks
    for it, so that a non-excluding filter returns a new queryset with
    exactly the rows of [qs] whose field is null; given any other
    string, or any value that differs from the null value, it returns
    what [super().filter] returns. *)
Theorem NullableCharFieldFilter_filter_cases
    (FILTERS_NULL_CHOICE_VALUE : string)
    (super_filter : Filter.t -> ref -> pyval -> M ref)
    (self : Filter.t) (st : store) (qs : ref) (q : Query) :
  st !! qs = Some q ->
  let filter := NullableCharFieldFilter.filter FILTERS_NULL_CHOICE_VALUE super_filter in
  let isnull := QAnd {[ Filter.field_name self +:+ "__isnull" := PBool true ]} in
  let q1 := add_condition (Filter.exclude self) isnull q in
  let q' := if Filter.distinct self then set_distinct q1 else q1 in
  (exists (r : ref) (st' : store),
     filter self qs (PStr FILTERS_NULL_CHOICE_VALUE) st = (Ok r, st') /\
     st `prefix_of` st' /\ st !! r = None /\ st' !! r = Some q') /\
  (forall (row : Type) (Heq : EqDecision row)
          (holds : row -> string -> pyval -> bool) (table : list row) (r : row),
     Filter.exclude self = false ->
     r ∈ rows holds table q' <->
     r ∈ rows holds table q /\
     holds r (Filter.field_name self +:+ "__isnull") (PBool true) = true) /\
  (forall v : pyval, py_eqb v (PStr FILTERS_NULL_CHOICE_VALUE) = false ->
     filter self qs v st = super_filter self qs v st) /\
  (forall s : string, s <> FILTERS_NULL_CHOICE_VALUE ->
     filter self qs (PStr s) st = super_filter self qs (PStr s) st).
Proof.
  intros Hlive filter isnull q1 q'.
  assert (Hother : forall v : pyval, py_eqb v (PStr FILTERS_NULL_CHOICE_VALUE) = false ->
     filter self qs v st = super_filter self qs v st).
  { intros v Hv. unfold filter, NullableCharFieldFilter.filter. by rewrite Hv. }
  split; [|split; [|split]].
  - unfold filter, NullableCharFieldFilter.filter. simpl.
    rewrite String.eqb_refl. simpl.
    apply (FilterFacts.get_method_then_distinct_live self qs isnull st q Hlive).
  - intros row Heq holds table r Hex.
    assert (r ∈ rows holds table q' <-> r ∈ rows holds table q1) as ->.
    { unfold q'. destruct (Filter.distinct self); [apply rows_set_distinct | done]. }
    unfold q1. rewrite rows_add_condition, Hex. unfold condition_holds, isnull. simpl.
    by rewrite kw_holds_singleton.
  - exact Hother.
  - intros s Hs. apply Hother. simpl. by apply String.eqb_neq.
Qed.

Lemma NullableCharFieldFilter_filter_cases_witness :
  [Samples.all_objects] !! 0%nat = Some Samples.all_objects /\
  "abc" <> "null" /\
  NullableCharFieldFilter.filter "null" Filter.filter Samples.serial_filter 0%nat
    (PStr "abc") [Samples.all_objects]
  = Filter.filter Samples.serial_filter 0%nat (PStr "abc") [Samples.all_objects].
Proof.
  split; [reflexivity|]. split; [discriminate|].
  apply (NullableCharFieldFilter_filter_cases "null" Filter.filter Samples.serial_filter
           [Samples.all_objects] 0%nat Samples.all_objects eq_refl).
  discriminate.
Defined.

(** ** [NumericArrayFilter] and [MultiValueArrayFilter] *)

Module ArrayFacts.
Import Filter.

(** No value is the one-element list of itself. *)
Lemma singleton_neq (v : pyval) : v <> PList [v].
Proof.
  intros H. apply (f_equal depth) in H. simpl in H.
  rewrite Nat.max_0_r in H. lia.
Qed.

Lemma wrapped_iff (v : pyval) :
  NumericArrayFilter.wrapped v = PList [v] <-> truthy v = true.
Proof.
  unfold NumericArrayFilter.wrapped. destruct (truthy v); [done|].
  split; [|done]. by intros ?%singleton_neq.
Qed.

Lemma unwrapped_iff (v : pyval) :
  NumericArrayFilter.wrapped v = v <-> truthy v = false.
Proof.
  unfold NumericArrayFilter.wrapped. destruct (truthy v); [|done].
  split; [|done]. intros H. symmetry in H. by apply singleton_neq in H.
Qed.

End ArrayFacts.

(** C9: [NumericArrayFilter.filter] hands [[value]] to
    [super().filter] if and only if the value is truthy; a falsy value
    ([None], 0, the empty string) is handed over as it is, so for the
    integer 0 the delegated filter receives 0 and not [[0]]. *)
Theorem NumericArrayFilter_wraps_iff_truthy
    (super_filter : Filter.t -> ref -> pyval -> M ref)
    (self : Filter.t) (qs : ref) (st : store) :
  (forall v, NumericArrayFilter.filter super_filter self qs v st
             = super_filter self qs (NumericArrayFilter.wrapped v) st) /\
  (forall v, NumericArrayFilter.wrapped v = PList [v] <-> truthy v = true) /\
  (forall v, NumericArrayFilter.wrapped v = v <-> truthy v = false) /\
  (forall v, v = PNone \/ v = PInt 0 \/ v = PStr "" ->
     truthy v = false /\
     NumericArrayFilter.filter super_filter self qs v st = super_filter self qs v st) /\
  NumericArrayFilter.filter super_filter self qs (PInt 0) st
  = super_filter self qs (PInt 0) st.
Proof.
  split; [done|]. split; [apply ArrayFacts.wrapped_iff|].
  split; [apply ArrayFacts.unwrapped_iff|].
  split; [|done].
  by intros v [->| [->| ->]].
Qed.

Lemma NumericArrayFilter_wraps_iff_truthy_witness :
  (PInt 0 = PNone \/ PInt 0 = PInt 0 \/ PInt 0 = PStr "") /\
  NumericArrayFilter.filter Filter.filter Samples.asns_filter 0%nat (PInt 0)
    [Samples.all_objects]
  = (Ok 1%nat,
     [Samples.all_objects;
      mkQuery [(false, QAnd {[ "asns__contains" := PInt 0 ]})] false false]).
Proof.
  split; [by right; left|].
  rewrite (proj2 (proj1 (proj2 (proj2 (proj2
    (NumericArrayFilter_wraps_iff_truthy Filter.filter Samples.asns_filter 0%nat
       [Samples.all_objects]))))
    (PInt 0) (or_intror (or_introl eq_refl)))).
  reflexivity.
Defined.

(** C4, the claim as stated fails: the integer 0 is neither [None] nor
    the null value "null", yet it is handed over unwrapped; and the
    string "null" is wrapped like any other non-empty string. *)
Lemma NumericArrayFilter_bypass_not_only_null :
  NumericArrayFilter.filter Filter.filter Samples.asns_filter 0%nat (PInt 0)
    [Samples.all_objects]
  = (Ok 1%nat,
     [Samples.all_objects;
      mkQuery [(false, QAnd {[ "asns__contains" := PInt 0 ]})] false false]) /\
  NumericArrayFilter.wrapped (PStr "null") = PList [PStr "null"] /\
  ~ (forall v : pyval,
       NumericArrayFilter.wrapped v = v <-> v = PNone \/ v = PStr "null").
Proof.
  split; [reflexivity|]. split; [reflexivity|].
  intros H. destruct (proj1 (H (PInt 0)) eq_refl) as [?|?]; discriminate.
Qed.

(** C4, amended: [NumericArrayFilter.filter] wraps every truthy value,
    the null-value string included, into a one-element list before it
    delegates, and hands [None] over as it is; in
    [MultiValueArrayFilter], the predicate for [None] is
    [<field_name> = None] whatever the lookup expression, any other
    value gets the predicate of the base class, and the multi-value
    filter turns the null value into that [None]. *)
Theorem array_filters_wrap_and_null
    (super_filter : Filter.t -> ref -> pyval -> M ref)
    (super_get_filter_predicate : Filter.t -> pyval -> kwargs)
    (self : Filter.t) (qs : ref) (st : store) :
  (forall v, truthy v = true ->
     NumericArrayFilter.filter super_filter self qs v st
     = super_filter self qs (PList [v]) st) /\
  (forall s, s <> "" ->
     NumericArrayFilter.filter super_filter self qs (PStr s) st
     = super_filter self qs (PList [PStr s]) st) /\
  NumericArrayFilter.filter super_filter self qs PNone st
  = super_filter self qs PNone st /\
  MultiValueArrayFilter.get_filter_predicate super_get_filter_predicate self PNone
  = {[ Filter.field_name self := PNone ]} /\
  (forall v, v <> PNone ->
     MultiValueArrayFilter.get_filter_predicate super_get_filter_predicate self v
     = super_get_filter_predicate self v) /\
  MultipleChoiceFilter.filter
    (MultiValueArrayFilter.get_filter_predicate super_get_filter_predicate)
    self qs (PList [PStr (Filter.null_value self)]) st
  = bind (Filter.get_method self qs (QAnd {[ Filter.field_name self := PNone ]}))
         (fun qs => if Filter.distinct self then QuerySet.distinct qs else ret qs) st.
Proof.
  split; [|split; [|split; [|split; [|split]]]].
  - intros v Hv. unfold NumericArrayFilter.filter, NumericArrayFilter.wrapped. by rewrite Hv.
  - intros s Hs. unfold NumericArrayFilter.filter, NumericArrayFilter.wrapped. simpl.
    by destruct (String.eqb_spec s "").
  - done.
  - done.
  - intros v Hv. by destruct v.
  - unfold MultipleChoiceFilter.filter, MultipleChoiceFilter.py_set, bind, lift. simpl.
    rewrite String.eqb_refl. simpl.
    destruct (Filter.conjoined self); simpl; [|done].
    unfold bind, ret.
    destruct (Filter.get_method self qs _ st) as [[r|e] st1]; done.
Qed.

Lemma array_filters_wrap_and_null_witness :
  truthy (PInt 65000) = true /\
  NumericArrayFilter.filter Filter.filter Samples.asns_filter 0%nat (PInt 65000)
    [Samples.all_objects]
  = (Ok 1%nat,
     [Samples.all_objects;
      mkQuery [(false, QAnd {[ "asns__contains" := PList [PInt 65000] ]})] false false]).
Proof.
  split; [reflexivity|].
  rewrite (proj1 (array_filters_wrap_and_null Filter.filter
             MultipleChoiceFilter.get_filter_predicate Samples.asns_filter 0%nat
             [Samples.all_objects])
             (PInt 65000) eq_refl).
  reflexivity.
Defined.

(** ** [MultiValueMACAddressFilter] *)

(** C6: whatever [super().filter] does, [MultiValueMACAddressFilter.filter]
    never ends in [ValidationError]: a result of [super().filter] is
    handed back, and when [super().filter] raises [ValidationError]
    the filter returns [qs.none()], a new queryset without rows. *)
Theorem MultiValueMACAddressFilter_filter_no_ValidationError
    (super_filter : Filter.t -> ref -> pyval -> M ref)
    (self : Filter.t) (qs : ref) (value : pyval) (st : store) :
  let filter := MultiValueMACAddressFilter.filter super_filter in
  (filter self qs value st).1 <> Raise ValidationError /\
  (forall st', super_filter self qs value st = (Raise ValidationError, st') ->
     filter self qs value st = QuerySet.none qs st' /\
     forall q, st' !! qs = Some q ->
       filter self qs value st = (Ok (length st'), st' ++ [set_empty q]) /\
       forall (row : Type) (Heq : EqDecision row)
              (holds : row -> string -> pyval -> bool) (table : list row),
         rows holds table (set_empty q) = []) /\
  (forall r st', super_filter self qs value st = (Ok r, st') ->
     filter self qs value st = (Ok r, st')).
Proof.
  intros filter. unfold filter, MultiValueMACAddressFilter.filter, try_except.
  split; [|split].
  - destruct (super_filter self qs value st) as [[r|e] st1]; simpl; [done|].
    destruct (decide (e = ValidationError)) as [->|Hne]; simpl.
    + unfold QuerySet.none, chain. by case_match.
    + congruence.
  - intros st' ->. simpl. split; [done|].
    intros q Hq. split; [|done].
    unfold QuerySet.none. by apply chain_live.
  - by intros r st' ->.
Qed.

Lemma MultiValueMACAddressFilter_filter_no_ValidationError_witness :
  Samples.mac_column_filter Samples.mac_address_filter 0%nat
    (PList [PStr "not-a-mac"]) [Samples.all_objects]
  = (Raise ValidationError, [Samples.all_objects]) /\
  MultiValueMACAddressFilter.filter Samples.mac_column_filter
    Samples.mac_address_filter 0%nat (PList [PStr "not-a-mac"]) [Samples.all_objects]
  = (Ok 1%nat, [Samples.all_objects; mkQuery [] false true]).
Proof.
  split; [reflexivity|].
  destruct (MultiValueMACAddressFilter_filter_no_ValidationError
              Samples.mac_column_filter Samples.mac_address_filter 0%nat
              (PList [PStr "not-a-mac"]) [Samples.all_objects]) as (_ & H & _).
  destruct (H [Samples.all_objects] eq_refl) as [_ H'].
  exact (proj1 (H' Samples.all_objects eq_refl)).
Defined.

(** ** No filter changes the queryset it is given *)

Module CopyFacts.

Lemma prefix_lookup_None (st st' : store) (r : ref) :
  st `prefix_of` st' -> st' !! r = None -> st !! r = None.
Proof.
  intros [k ->] H. apply lookup_ge_None. apply lookup_ge_None in H.
  rewrite length_app in H. lia.
Qed.

Lemma extends_refl q : extends q q.
Proof. split; [exists []; by rewrite app_nil_r | done]. Qed.

Lemma extends_trans q1 q2 q3 : extends q1 q2 -> extends q2 q3 -> extends q1 q3.
Proof.
  intros ([a1 H1] & Hd1 & He1) ([a2 H2] & Hd2 & He2). split; [|split; auto].
  exists (a1 ++ a2). by rewrite H2, H1, app_assoc.
Qed.

Lemma extends_add_condition negated c q : extends q (add_condition negated c q).
Proof. split; [by eexists | done]. Qed.

Lemma extends_set_distinct q : extends q (set_distinct q).
Proof. split; [exists []; simpl; by rewrite app_nil_r | done]. Qed.

Lemma extends_set_empty q : extends q (set_empty q).
Proof. split; [exists []; simpl; by rewrite app_nil_r | done]. Qed.

Lemma returns_narrowed_ret qs : returns_narrowed qs (ret qs).
Proof.
  split; [apply preserves_ret|]. intros st q r st' Hq [= <- <-].
  split; [by left|]. exists q. split; [done | apply extends_refl].
Qed.

Lemma returns_narrowed_raise qs e : returns_narrowed qs (raise e).
Proof. split; [apply preserves_raise|]. by intros st q r st'. Qed.

Lemma returns_narrowed_chain f qs :
  (forall q, extends q (f q)) -> returns_narrowed qs (chain f qs).
Proof.
  intros Hf. split; [apply preserves_chain|].
  intros st q r st' Hq H.
  destruct (chain_fresh _ _ _ _ _ H) as (Hr & q0 & Hq0 & Hq').
  rewrite Hq in Hq0. injection Hq0 as <-.
  split; [by right|]. eauto.
Qed.

Lemma returns_narrowed_bind qs (m : M ref) (k : ref -> M ref) :
  returns_narrowed qs m -> (forall a, returns_narrowed a (k a)) ->
  returns_narrowed qs (bind m k).
Proof.
  intros [Hpm Hm] Hk. split.
  { apply preserves_bind; [done|]. intros a. apply Hk. }
  intros st q r st' Hq. unfold bind.
  destruct (m st) as [[a|e] st1] eqn:E; [|done].
  intros Hka. destruct (Hk a) as [Hpk Hka'].
  specialize (Hpm st). rewrite E in Hpm. simpl in Hpm.
  destruct (Hm _ _ _ _ Hq E) as (Ha & qa & Hqa & Hext).
  destruct (Hka' _ _ _ _ Hqa Hka) as (Hr & qr & Hqr & Hext').
  split.
  - destruct Hr as [->|Hn]; [done|]. right. by eapply prefix_lookup_None.
  - exists qr. split; [done|]. by eapply extends_trans.
Qed.

(** A pure computation first, which allocates nothing. *)
Lemma returns_narrowed_bind_lift {A} qs (x : result A) (k : A -> M ref) :
  (forall a, returns_narrowed qs (k a)) -> returns_narrowed qs (bind (lift x) k).
Proof.
  intros Hk. unfold bind, lift. destruct x as [a|e].
  - apply Hk.
  - apply (returns_narrowed_raise qs e).
Qed.

Lemma returns_narrowed_try_except qs (m : M ref) e (h : M ref) :
  returns_narrowed qs m -> returns_narrowed qs h ->
  returns_narrowed qs (try_except m e h).
Proof.
  intros [Hpm Hm] [Hph Hh]. split; [by apply preserves_try_except|].
  intros st q r st' Hq. unfold try_except.
  destruct (m st) as [[a|e'] st1] eqn:E.
  - intros [= <- <-]. eauto.
  - destruct (decide (e' = e)); [|done].
    intros Hr. specialize (Hpm st). rewrite E in Hpm. simpl in Hpm.
    assert (st1 !! qs = Some q) as Hq1 by by eapply prefix_lookup_Some.
    destruct (Hh _ _ _ _ Hq1 Hr) as (Hfresh & q' & Hq' & Hext).
    split; [|eauto].
    destruct Hfresh as [->|Hn]; [by left|]. right. by eapply prefix_lookup_None.
Qed.

Lemma returns_narrowed_get_method self qs c :
  returns_narrowed qs (Filter.get_method self qs c).
Proof.
  unfold Filter.get_method, QuerySet.exclude, QuerySet.filter.
  destruct (Filter.exclude self); apply returns_narrowed_chain;
    intros q; apply extends_add_condition.
Qed.

Lemma returns_narrowed_distinct_if (b : bool) qs :
  returns_narrowed qs (if b then QuerySet.distinct qs else ret qs).
Proof.
  destruct b; [|apply returns_narrowed_ret].
  apply returns_narrowed_chain. apply extends_set_distinct.
Qed.

Lemma returns_narrowed_none qs : returns_narrowed qs (QuerySet.none qs).
Proof. apply returns_narrowed_chain. apply extends_set_empty. Qed.

(** The library's own filters return narrowed copies. *)
Lemma returns_narrowed_Filter_filter self qs value :
  returns_narrowed qs (Filter.filter self qs value).
Proof.
  unfold Filter.filter. destruct (py_in value EMPTY_VALUES); [apply returns_narrowed_ret|].
  apply returns_narrowed_bind; [apply returns_narrowed_distinct_if|].
  intros a. apply returns_narrowed_get_method.
Qed.

Lemma returns_narrowed_fold_M {A} (f : ref -> A -> M ref) (l : list A) :
  (forall qs x, returns_narrowed qs (f qs x)) ->
  forall qs, returns_narrowed qs (MultipleChoiceFilter.fold_M f l qs).
Proof.
  intros Hf. induction l as [|x l IH]; intros qs; simpl.
  - apply returns_narrowed_ret.
  - apply returns_narrowed_bind; [apply Hf | apply IH].
Qed.

Lemma returns_narrowed_MultipleChoiceFilter_filter gfp self qs value :
  returns_narrowed qs (MultipleChoiceFilter.filter gfp self qs value).
Proof.
  unfold MultipleChoiceFilter.filter.
  destruct (negb (truthy value)); [apply returns_narrowed_ret|].
  apply returns_narrowed_bind_lift. intros vs.
  apply returns_narrowed_bind; [|intros a; apply returns_narrowed_distinct_if].
  destruct (Filter.conjoined self).
  - apply returns_narrowed_fold_M. intros qs' p. apply returns_narrowed_get_method.
  - apply returns_narrowed_get_method.
Qed.

Lemma returns_narrowed_ContentTypeFilter str_lower self qs value :
  returns_narrowed qs (ContentTypeFilter.filter str_lower self qs value).
Proof.
  unfold ContentTypeFilter.filter.
  destruct (py_in value EMPTY_VALUES); [apply returns_narrowed_ret|].
  destruct (rbind _ _) as [[a b]|[]];
    first [ apply returns_narrowed_none
          | apply returns_narrowed_raise
          | apply returns_narrowed_chain; intros q; apply extends_add_condition ].
Qed.

(** What [returns_narrowed] says about a queryset that is alive. *)
Lemma returns_narrowed_unchanged qs (m : M ref) (st : store) (q : Query) :
  returns_narrowed qs m -> st !! qs = Some q ->
  (forall l q0, st !! l = Some q0 -> (m st).2 !! l = Some q0) /\
  (forall r, (m st).1 = Ok r ->
     (r = qs \/ (st !! r = None /\ is_Some ((m st).2 !! r))) /\
     exists q', (m st).2 !! r = Some q' /\ extends q q').
Proof.
  intros [Hp Hr] Hq. split.
  - intros l q0 Hl. by eapply prefix_lookup_Some.
  - intros r Hok. destruct (m st) as [res st'] eqn:E. simpl in *. subst res.
    destruct (Hr st q r st' Hq E) as (Hfresh & q' & Hq' & Hext).
    split; [|eauto]. destruct Hfresh as [->|Hn]; [by left|]. right. split; [done|]. eauto.
Qed.

(** What [ContentTypeFilter.filter] hands back on a live queryset, case
    by case. *)
Lemma ContentTypeFilter_outcomes str_lower self qs value st q :
  st !! qs = Some q ->
  (py_in value EMPTY_VALUES = true /\
   ContentTypeFilter.filter str_lower self qs value st = (Ok qs, st)) \/
  (py_in value EMPTY_VALUES = false /\
   ((exists s app_label model,
       value = PStr s /\ split "." (str_lower s) = [app_label; model] /\
       ContentTypeFilter.filter str_lower self qs value st
       = (Ok (length st),
          st ++ [add_condition false
                   (QAnd (<[ Filter.field_name self +:+ "__model" := PStr model ]>
                            {[ Filter.field_name self +:+ "__app_label" := PStr app_label ]}))
                   q])) \/
    ContentTypeFilter.filter str_lower self qs value st
      = (Ok (length st), st ++ [set_empty q]) \/
    ContentTypeFilter.filter str_lower self qs value st = (Raise AttributeError, st))).
Proof.
  intros Hlive. unfold ContentTypeFilter.filter.
  destruct (py_in value EMPTY_VALUES); [by left|]. right. split; [done|].
  destruct value as [| | |s| | | | |]; simpl; try (by right; right).
  destruct (split "." (str_lower s)) as [|a [|b [|c l]]] eqn:E; simpl;
    unfold QuerySet.none, QuerySet.filter; rewrite (chain_live _ _ _ _ Hlive);
    try (by right; left).
  left. by exists s, a, b.
Qed.

End CopyFacts.

(** C7, the claim as stated fails: for an empty value the filter hands
    back the very queryset it was given, not a new one, and allocates
    nothing (the value is returned before it is lower-cased). *)
Lemma ContentTypeFilter_filter_empty_returns_same :
  [Samples.all_objects] !! 0%nat = Some Samples.all_objects /\
  ContentTypeFilter.filter lower Samples.object_type_filter 0%nat (PStr "")
    [Samples.all_objects]
  = (Ok 0%nat, [Samples.all_objects]).
Proof. split; reflexivity. Qed.

(** C7, amended: as long as the filters of the library they delegate to
    change no object and return [qs] or a new queryset holding the
    query of [qs] with conditions added (which the library's filters
    do), so do the filters that this module overrides: the queryset
    [qs] they were given is the same afterwards, whether they return
    or raise, and what they return is [qs] itself or a queryset that
    did not exist before and holds the query of [qs] with conditions
    added. The predicate added is stated for the filters that add it
    themselves: [ContentTypeFilter.filter] returns [qs] for an empty
    value and otherwise a new queryset that is [qs] with the two
    lookups on the pieces of the lower-cased value, or [qs.none()];
    [NullableCharFieldFilter.filter] on the null value returns a new
    queryset that is [qs] with [<field_name>__isnull = True];
    [MultiValueMACAddressFilter.filter] returns [qs.none()] when the
    library's filter raised [ValidationError];
    [NumericArrayFilter.filter] returns what the library's filter
    returns for the wrapped value, which for a number other than zero
    is a new queryset that is [qs] with the lookup of the
    one-member list. *)
Theorem filters_leave_queryset_unchanged
    (str_lower : string -> string)
    (FILTERS_NULL_CHOICE_VALUE : string)
    (multiple_choice_filter char_filter number_filter : Filter.t -> ref -> pyval -> M ref)
    (super_get_filter_predicate : Filter.t -> pyval -> kwargs)
    (model_multiple_choice_filter :
       (Filter.t -> pyval -> kwargs) -> Filter.t -> ref -> pyval -> M ref) :
  (forall self qs value, returns_narrowed qs (multiple_choice_filter self qs value)) ->
  (forall self qs value, returns_narrowed qs (char_filter self qs value)) ->
  (forall self qs value, returns_narrowed qs (number_filter self qs value)) ->
  (forall gfp self qs value,
     returns_narrowed qs (model_multiple_choice_filter gfp self qs value)) ->
  forall (self : Filter.t) (qs : ref) (value : pyval) (st : store) (q : Query),
    st !! qs = Some q ->
    (forall m : M ref,
       In m [ MultiValueMACAddressFilter.filter multiple_choice_filter self qs value;
              TreeNodeMultipleChoiceFilter.filter
                super_get_filter_predicate model_multiple_choice_filter self qs value;
              NullableCharFieldFilter.filter FILTERS_NULL_CHOICE_VALUE char_filter
                self qs value;
              NumericArrayFilter.filter number_filter self qs value;
              ContentTypeFilter.filter str_lower self qs value ] ->
       (m st).2 !! qs = Some q /\
       (forall l q0, st !! l = Some q0 -> (m st).2 !! l = Some q0) /\
       (forall r, (m st).1 = Ok r ->
          (r = qs \/ (st !! r = None /\ is_Some ((m st).2 !! r))) /\
          exists q', (m st).2 !! r = Some q' /\ extends q q')) /\
    ((py_in value EMPTY_VALUES = true /\
      ContentTypeFilter.filter str_lower self qs value st = (Ok qs, st)) \/
     (py_in value EMPTY_VALUES = false /\
      ((exists s app_label model,
          value = PStr s /\ split "." (str_lower s) = [app_label; model] /\
          ContentTypeFilter.filter str_lower self qs value st
          = (Ok (length st),
             st ++ [add_condition false
                      (QAnd (<[ Filter.field_name self +:+ "__model" := PStr model ]>
                               {[ Filter.field_name self +:+ "__app_label"
                                    := PStr app_label ]}))
                      q])) \/
       ContentTypeFilter.filter str_lower self qs value st
         = (Ok (length st), st ++ [set_empty q]) \/
       ContentTypeFilter.filter str_lower self qs value st
         = (Raise AttributeError, st)))) /\
    (exists (r : ref) (st' : store),
       NullableCharFieldFilter.filter FILTERS_NULL_CHOICE_VALUE char_filter
         self qs (PStr FILTERS_NULL_CHOICE_VALUE) st = (Ok r, st') /\
       st !! r = None /\
       let isnull := QAnd {[ Filter.field_name self +:+ "__isnull" := PBool true ]} in
       st' !! r = Some (if Filter.distinct self
                        then set_distinct (add_condition (Filter.exclude self) isnull q)
                        else add_condition (Filter.exclude self) isnull q)) /\
    (forall st1, multiple_choice_filter self qs value st = (Raise ValidationError, st1) ->
       MultiValueMACAddressFilter.filter multiple_choice_filter self qs value st
       = (Ok (length st1), st1 ++ [set_empty q])) /\
    (NumericArrayFilter.filter number_filter self qs value st
     = number_filter self qs (if truthy value then PList [value] else value) st) /\
    (forall z : Z, z <> 0 ->
       exists (r : ref) (st' : store),
         NumericArrayFilter.filter Filter.filter self qs (PInt z) st = (Ok r, st') /\
         st !! r = None /\
         st' !! r
         = Some (add_condition (Filter.exclude self)
                   (QAnd {[ Filter.field_name self +:+ "__" +:+ Filter.lookup_expr self
                              := PList [PInt z] ]})
                   (if Filter.distinct self then set_distinct q else q))) /\
    (forall self' qs' value', returns_narrowed qs' (Filter.filter self' qs' value')) /\
    (forall gfp self' qs' value',
       returns_narrowed qs' (MultipleChoiceFilter.filter gfp self' qs' value')).
Proof.
  intros Hmc Hchar Hnum Hmmc self qs value st q Hlive.
  split; [|split; [|split; [|split; [|split; [|split; [|split]]]]]].
  - intros m Hin.
    assert (returns_narrowed qs m) as Hm.
    { simpl in Hin. destruct Hin as [<-|[<-|[<-|[<-|[<-|[]]]]]].
      - apply CopyFacts.returns_narrowed_try_except;
          [apply Hmc | apply CopyFacts.returns_narrowed_none].
      - apply CopyFacts.returns_narrowed_bind_lift. intros a. apply Hmmc.
      - unfold NullableCharFieldFilter.filter. destruct (negb _); [apply Hchar|].
        apply CopyFacts.returns_narrowed_bind; [apply CopyFacts.returns_narrowed_get_method|].
        intros a. apply CopyFacts.returns_narrowed_distinct_if.
      - apply Hnum.
      - apply CopyFacts.returns_narrowed_ContentTypeFilter. }
    destruct (CopyFacts.returns_narrowed_unchanged qs m st q Hm Hlive) as [Hkeep Hres].
    split; [by apply Hkeep|]. by split.
  - by apply CopyFacts.ContentTypeFilter_outcomes.
  - unfold NullableCharFieldFilter.filter. simpl. rewrite String.eqb_refl. simpl.
    destruct (FilterFacts.get_method_then_distinct_live self qs
                (QAnd {[ Filter.field_name self +:+ "__isnull" := PBool true ]}) st q Hlive)
      as (r & st' & Hrun & _ & Hnew & Hq').
    by exists r, st'.
  - intros st1 Hraise. unfold MultiValueMACAddressFilter.filter, try_except.
    rewrite Hraise. simpl. unfold QuerySet.none. apply chain_live.
    destruct (Hmc self qs value) as [Hpre _]. specialize (Hpre st).
    rewrite Hraise in Hpre. by eapply prefix_lookup_Some.
  - done.
  - intros z Hz. unfold NumericArrayFilter.filter, NumericArrayFilter.wrapped.
    assert (truthy (PInt z) = true) as -> by (simpl; by destruct (Z.eqb_spec z 0)).
    destruct (FilterFacts.Filter_filter_live self qs (PList [PInt z]) st q Hlive eq_refl)
      as (r & st' & Hrun & _ & Hnew & Hq').
    by exists r, st'.
  - apply CopyFacts.returns_narrowed_Filter_filter.
  - apply CopyFacts.returns_narrowed_MultipleChoiceFilter_filter.
Qed.

Lemma filters_leave_queryset_unchanged_witness :
  [Samples.all_objects] !! 0%nat = Some Samples.all_objects /\
  (ContentTypeFilter.filter lower Samples.object_type_filter 0%nat (PStr "dcim.site")
     [Samples.all_objects]).2 !! 0%nat = Some Samples.all_objects.
Proof.
  split; [reflexivity|].
  refine (proj1 (proj1 (filters_leave_queryset_unchanged lower "null"
    (MultipleChoiceFilter.filter MultipleChoiceFilter.get_filter_predicate)
    Filter.filter Filter.filter MultipleChoiceFilter.get_filter_predicate
    MultipleChoiceFilter.filter
    (CopyFacts.returns_narrowed_MultipleChoiceFilter_filter _)
    CopyFacts.returns_narrowed_Filter_filter
    CopyFacts.returns_narrowed_Filter_filter
    CopyFacts.returns_narrowed_MultipleChoiceFilter_filter
    Samples.object_type_filter 0%nat (PStr "dcim.site")
    [Samples.all_objects] Samples.all_objects eq_refl) _ _)).
  simpl. tauto.
Defined.

(** ** The tree model and [TreeNodeMultipleChoiceFilter] *)

Module TreeFacts.
Import Tree.

(** Induction over a node with the property known for its children. *)
Lemma node_ind_children (P : node -> Prop) :
  (forall pk cs, Forall P cs -> P (Node pk cs)) -> forall n, P n.
Proof.
  intros H. fix IH 1. intros [pk cs]. apply H.
  induction cs as [|c cs IHcs]; constructor; [apply IH | exact IHcs].
Qed.

Lemma below_iff n m :
  below n m <-> exists c, In c (children n) /\ (m = c \/ below c m).
Proof.
  split.
  - intros [c Hc|c m' Hc Hb]; eauto.
  - intros (c & Hc & [->|Hb]); [by apply below_child | by eapply below_deeper].
Qed.

(** The nodes that [descendants] lists are those below the node. *)
Lemma In_descendants n : forall m, In m (descendants n) <-> below n m.
Proof.
  induction n as [pk cs IH] using node_ind_children. intros m.
  rewrite below_iff. simpl. rewrite in_flat_map.
  rewrite Forall_forall in IH.
  split; intros (c & Hc & Hm); exists c; (split; [done|]).
  - destruct Hm as [<-|Hm]; [by left|]. right. apply IH; [by apply list_elem_of_In | done].
  - destruct Hm as [->|Hm]; [by left|]. right. apply IH; [by apply list_elem_of_In | done].
Qed.

(** [get_descendants(include_self=True)] is the node itself and every
    node below it, at any depth. *)
Lemma In_get_descendants n m :
  In m (get_descendants n true) <-> m = n \/ below n m.
Proof. simpl. rewrite In_descendants. intuition. Qed.

Lemma below_trans a b c : below a b -> below b c -> below a c.
Proof.
  intros Hab Hbc. induction Hab as [a b Hb|a x b Hx Hxb IH].
  - by eapply below_deeper.
  - eapply below_deeper; [done|]. by apply IH.
Qed.

Lemma all2_node_eqb_eq (xs ys : list node) :
  Forall (fun x => forall y, node_eqb x y = true -> x = y) xs ->
  all2 node_eqb xs ys = true -> xs = ys.
Proof.
  intros H. revert ys. induction H as [|x xs Hx _ IH]; intros [|y ys]; simpl; try done.
  intros [Hxy Hrest]%andb_true_iff. f_equal; [by apply Hx | by apply IH].
Qed.

Lemma node_eqb_eq a : forall b, node_eqb a b = true -> a = b.
Proof.
  induction a as [i ca IH] using node_ind_children. intros [j cb]. simpl.
  intros [Hij Hc]%andb_true_iff. apply Z.eqb_eq in Hij as ->. f_equal.
  revert cb Hc. induction IH as [|x xs Hx _ IHxs]; intros [|y ys]; try done.
  intros [Hxy Hrest]%andb_true_iff. f_equal; [by apply Hx | by apply IHxs].
Qed.

Lemma py_eqb_nodesets_eq xs ys :
  py_eqb (PNodeSet xs) (PNodeSet ys) = true -> xs = ys.
Proof.
  simpl. apply all2_node_eqb_eq. apply Forall_forall. intros x _. apply node_eqb_eq.
Qed.

End TreeFacts.

Module TreeFilterFacts.
Import Tree Filter.

(** What the filter puts in the place of an entry that is a string or
    a node. *)
Lemma expand_str s : TreeNodeMultipleChoiceFilter.expand (PStr s) = Ok (PStr s).
Proof. done. Qed.

Lemma expand_node n :
  TreeNodeMultipleChoiceFilter.expand (PNode n) = Ok (PNodeSet (get_descendants n true)).
Proof. done. Qed.

Lemma expand_not_str v :
  isinstance_str v = false ->
  TreeNodeMultipleChoiceFilter.expand v = TreeNodeMultipleChoiceFilter.call_get_descendants v.
Proof. intros H. unfold TreeNodeMultipleChoiceFilter.expand. by rewrite H. Qed.

Lemma map_r_expand (vs : list pyval) :
  Forall (fun v => isinstance_str v = true \/ exists n, v = PNode n) vs ->
  map_r TreeNodeMultipleChoiceFilter.expand vs
  = Ok (map (fun v => match v with
                      | PNode n => PNodeSet (get_descendants n true)
                      | _ => v
                      end) vs).
Proof.
  induction 1 as [|v vs Hv _ IH]; simpl; [done|].
  rewrite IH. destruct Hv as [Hs|[n ->]]; [|done].
  by destruct v.
Qed.

Lemma filter_strings_and_nodes gfp super self qs (vs : list pyval) st :
  Forall (fun v => isinstance_str v = true \/ exists n, v = PNode n) vs ->
  TreeNodeMultipleChoiceFilter.filter gfp super self qs (PList vs) st
  = super (TreeNodeMultipleChoiceFilter.get_filter_predicate gfp) self qs
      (PList (map (fun v => match v with
                            | PNode n => PNodeSet (get_descendants n true)
                            | _ => v
                            end) vs)) st.
Proof.
  intros H. unfold TreeNodeMultipleChoiceFilter.filter, bind, lift. simpl.
  by rewrite (map_r_expand vs H).
Qed.

End TreeFilterFacts.

(** C10: [TreeNodeMultipleChoiceFilter.filter] calls [get_descendants]
    on the entries that are not strings only; an entry that is a
    string reaches [super().filter] as it is and in its place, a node
    is replaced by its descendants, and a list of strings is handed
    over unchanged. *)
Theorem TreeNodeMultipleChoiceFilter_strings_pass_through
    (super_get_filter_predicate : Filter.t -> pyval -> kwargs)
    (super_filter : (Filter.t -> pyval -> kwargs) -> Filter.t -> ref -> pyval -> M ref)
    (self : Filter.t) (qs : ref) (st : store) :
  let filter := TreeNodeMultipleChoiceFilter.filter super_get_filter_predicate super_filter in
  let gfp := TreeNodeMultipleChoiceFilter.get_filter_predicate super_get_filter_predicate in
  let handed_over := fun v => match v with
                              | PNode n => PNodeSet (Tree.get_descendants n true)
                              | _ => v
                              end in
  (forall s, TreeNodeMultipleChoiceFilter.expand (PStr s) = Ok (PStr s)) /\
  (forall v, isinstance_str v = false ->
     TreeNodeMultipleChoiceFilter.expand v
     = TreeNodeMultipleChoiceFilter.call_get_descendants v) /\
  (forall vs, Forall (fun v => isinstance_str v = true \/ exists n, v = PNode n) vs ->
     filter self qs (PList vs) st = super_filter gfp self qs (PList (map handed_over vs)) st /\
     forall i s, vs !! i = Some (PStr s) -> map handed_over vs !! i = Some (PStr s)) /\
  (forall ss : list string,
     filter self qs (PList (map PStr ss)) st
     = super_filter gfp self qs (PList (map PStr ss)) st).
Proof.
  intros filter gfp handed_over.
  split; [done|]. split; [apply TreeFilterFacts.expand_not_str|]. split.
  - intros vs Hvs. split; [by apply TreeFilterFacts.filter_strings_and_nodes|].
    intros i s Hi. by rewrite list_lookup_fmap, Hi.
  - intros ss. unfold filter.
    rewrite TreeFilterFacts.filter_strings_and_nodes.
    + by rewrite <- list_fmap_compose.
    + apply Forall_forall. intros v [s [-> _]]%list_elem_of_fmap. by left.
Qed.

Lemma TreeNodeMultipleChoiceFilter_strings_pass_through_witness :
  isinstance_str (PNode Samples.spain) = false /\
  TreeNodeMultipleChoiceFilter.expand (PNode Samples.spain)
  = Ok (PNodeSet [Samples.spain; Samples.madrid]).
Proof.
  split; [reflexivity|].
  rewrite (proj1 (proj2 (TreeNodeMultipleChoiceFilter_strings_pass_through
             MultipleChoiceFilter.get_filter_predicate MultipleChoiceFilter.filter
             Samples.region_filter 0%nat [Samples.all_objects]))
             (PNode Samples.spain) eq_refl).
  reflexivity.
Defined.

Module MultiFacts.
Import Tree Filter.

Lemma q_is_empty_Q : q_is_empty (QAnd ∅) = true.
Proof. simpl. by rewrite map_to_list_empty. Qed.

Lemma q_is_empty_singleton k v : q_is_empty (QAnd {[ k := v ]}) = false.
Proof. simpl. by rewrite map_to_list_singleton. Qed.

Section or_of_predicates.
Context {row : Type}.
Variable holds : row -> string -> pyval -> bool.

Lemma q_holds_fold_or_from r (ps : list kwargs) (acc : Q) :
  Forall (fun p => q_is_empty (QAnd p) = false) ps ->
  q_is_empty acc = false ->
  q_holds holds r (fold_left (fun q p => q_or q (QAnd p)) ps acc)
  = q_holds holds r acc || existsb (kw_holds holds r) ps.
Proof.
  intros Hps. revert acc. induction Hps as [|p ps Hp _ IH]; intros acc Hacc; simpl.
  - by rewrite orb_false_r.
  - unfold q_or at 2. rewrite Hacc, Hp. rewrite IH by done. simpl.
    by rewrite orb_assoc.
Qed.

(** The [Q] object that the loop builds from [Q()] holds on a row
    exactly when one of the predicates does. *)
Lemma q_holds_fold_or r (ps : list kwargs) :
  Forall (fun p => q_is_empty (QAnd p) = false) ps ->
  ps <> [] ->
  q_holds holds r (fold_left (fun q p => q_or q (QAnd p)) ps (QAnd ∅))
  = existsb (kw_holds holds r) ps.
Proof.
  intros Hps Hne. destruct ps as [|p ps]; [done|]. simpl.
  inversion Hps as [|? ? Hp Hps']; subst.
  unfold q_or at 2. rewrite q_is_empty_Q.
  by rewrite q_holds_fold_or_from.
Qed.
End or_of_predicates.

Lemma In_dedup v vs : In v (MultipleChoiceFilter.dedup vs) -> In v vs.
Proof.
  revert v. induction vs as [|w vs IH]; intros v; simpl; [done|].
  intros [->|Hin]; [by left|]. right. apply filter_In in Hin as [Hin _]. by apply IH.
Qed.

(** A set of node querysets keeps every one of them. *)
Lemma In_dedup_nodesets (xs : list (list node)) x :
  In x xs -> In (PNodeSet x) (MultipleChoiceFilter.dedup (map PNodeSet xs)).
Proof.
  induction xs as [|y xs IH]; simpl; [done|].
  intros [->|Hin]; [by left|].
  destruct (all2 node_eqb y x) eqn:E.
  - apply (TreeFacts.py_eqb_nodesets_eq y x) in E as ->. by left.
  - right. apply filter_In. split; [by apply IH|]. simpl. by rewrite E.
Qed.

Lemma hashable_nodesets (xs : list (list node)) :
  forallb MultipleChoiceFilter.hashable (map PNodeSet xs) = true.
Proof. by induction xs. Qed.

Lemma dedup_nonempty vs : vs <> [] -> MultipleChoiceFilter.dedup vs <> [].
Proof. by destruct vs. Qed.

(** The predicate the tree filter builds for a node queryset. *)
Lemma predicate_of_nodeset self (ms : list node) :
  TreeNodeMultipleChoiceFilter.get_filter_predicate
    MultipleChoiceFilter.get_filter_predicate self (PNodeSet ms)
  = {[ MultipleChoiceFilter.predicate_name self := PNodeSet ms ]}.
Proof.
  simpl. unfold MultipleChoiceFilter.get_filter_predicate.
  by destruct (to_field_name self).
Qed.

(** The library's multi-value filter on node querysets: one [Q] object
    with a lookup per distinct queryset. *)
Lemma filter_nodesets self qs st (xs : list (list node)) :
  xs <> [] -> conjoined self = false ->
  MultipleChoiceFilter.filter
    (TreeNodeMultipleChoiceFilter.get_filter_predicate MultipleChoiceFilter.get_filter_predicate)
    self qs (PList (map PNodeSet xs)) st
  = bind (get_method self qs
            (fold_left (fun q p => q_or q (QAnd p))
               (map (fun v => {[ MultipleChoiceFilter.predicate_name self := v ]})
                    (MultipleChoiceFilter.dedup (map PNodeSet xs)))
               (QAnd ∅)))
         (fun qs => if distinct self then QuerySet.distinct qs else ret qs) st.
Proof.
  intros Hne Hconj. unfold MultipleChoiceFilter.filter.
  assert (truthy (PList (map PNodeSet xs)) = true) as -> by by destruct xs.
  simpl. unfold MultipleChoiceFilter.py_set. rewrite hashable_nodesets.
  unfold bind at 1, lift. rewrite Hconj.
  assert (map (fun v => TreeNodeMultipleChoiceFilter.get_filter_predicate
                  MultipleChoiceFilter.get_filter_predicate self
                  (if py_eqb v (PStr (null_value self)) then PNone else v))
              (MultipleChoiceFilter.dedup (map PNodeSet xs))
          = map (fun v => {[ MultipleChoiceFilter.predicate_name self := v ]})
              (MultipleChoiceFilter.dedup (map PNodeSet xs))) as ->; [|done].
  apply map_ext_in. intros v Hv%In_dedup.
  apply in_map_iff in Hv as (ms & <- & _).
  apply predicate_of_nodeset.
Qed.

Lemma holds_or_of_nodesets {row : Type} (holds : row -> string -> pyval -> bool)
    (r : row) (name : string) (xs : list (list node)) :
  xs <> [] ->
  q_holds holds r
    (fold_left (fun q p => q_or q (QAnd p))
       (map (fun v => {[ name := v ]}) (MultipleChoiceFilter.dedup (map PNodeSet xs)))
       (QAnd ∅)) = true
  <-> exists x, In x xs /\ holds r name (PNodeSet x) = true.
Proof.
  intros Hne. rewrite q_holds_fold_or.
  - rewrite existsb_exists. split.
    + intros (p & Hp & Hh). apply in_map_iff in Hp as (v & <- & Hv).
      apply In_dedup in Hv. apply in_map_iff in Hv as (x & <- & Hx).
      rewrite kw_holds_singleton in Hh. eauto.
    + intros (x & Hx & Hh). exists {[ name := PNodeSet x ]}. split.
      * apply in_map_iff. exists (PNodeSet x). split; [done|]. by apply In_dedup_nodesets.
      * by rewrite kw_holds_singleton.
  - apply Forall_forall. intros p (v & -> & _)%list_elem_of_fmap.
    apply q_is_empty_singleton.
  - intros H%map_eq_nil. revert H. apply dedup_nonempty. by destruct xs.
Qed.

End MultiFacts.

(** C5: [TreeNodeMultipleChoiceFilter.filter] replaces every selected
    node by [get_descendants(include_self=True)], the node itself and
    all nodes below it at any depth, before it delegates; with the
    library's multi-value filter (not conjoined, not excluding) the
    rows of the result are the rows of [qs] linked to a selected node
    or to a node below one; and the predicate for [None] is
    [<field_name>__isnull = True]. *)
Theorem TreeNodeMultipleChoiceFilter_selects_descendants
    (super_get_filter_predicate : Filter.t -> pyval -> kwargs)
    (super_filter : (Filter.t -> pyval -> kwargs) -> Filter.t -> ref -> pyval -> M ref)
    (self : Filter.t) (qs : ref) (st : store) (ns : list node) :
  TreeNodeMultipleChoiceFilter.filter super_get_filter_predicate super_filter
    self qs (PList (map PNode ns)) st
  = super_filter
      (TreeNodeMultipleChoiceFilter.get_filter_predicate super_get_filter_predicate)
      self qs (PList (map (fun n => PNodeSet (Tree.get_descendants n true)) ns)) st /\
  (forall n m, In m (Tree.get_descendants n true) <-> m = n \/ Tree.below n m) /\
  TreeNodeMultipleChoiceFilter.get_filter_predicate super_get_filter_predicate self PNone
  = {[ Filter.field_name self +:+ "__isnull" := PBool true ]} /\
  (forall q : Query,
     st !! qs = Some q -> ns <> [] ->
     Filter.conjoined self = false -> Filter.exclude self = false ->
     exists (r : ref) (st' : store) (q' : Query),
       TreeNodeMultipleChoiceFilter.filter
         MultipleChoiceFilter.get_filter_predicate MultipleChoiceFilter.filter
         self qs (PList (map PNode ns)) st = (Ok r, st') /\
       st `prefix_of` st' /\ st !! r = None /\ st' !! r = Some q' /\
       forall (row : Type) (Heq : EqDecision row)
              (holds : row -> string -> pyval -> bool) (table : list row)
              (linked : row -> node -> bool),
         (forall x ms, holds x (MultipleChoiceFilter.predicate_name self) (PNodeSet ms)
                       = existsb (linked x) ms) ->
         forall x : row,
           x ∈ rows holds table q' <->
           x ∈ rows holds table q /\
           exists n m, In n ns /\ (m = n \/ Tree.below n m) /\ linked x m = true).
Proof.
  assert (Hexp : forall gfp super,
    TreeNodeMultipleChoiceFilter.filter gfp super self qs (PList (map PNode ns)) st
    = super (TreeNodeMultipleChoiceFilter.get_filter_predicate gfp) self qs
        (PList (map PNodeSet (map (fun n => Tree.get_descendants n true) ns))) st).
  { intros gfp super. rewrite TreeFilterFacts.filter_strings_and_nodes.
    - by rewrite <- !list_fmap_compose.
    - apply Forall_forall. intros v [n [-> _]]%list_elem_of_fmap. eauto. }
  split; [|split; [|split]].
  - rewrite Hexp. by rewrite <- list_fmap_compose.
  - apply TreeFacts.In_get_descendants.
  - done.
  - intros q Hlive Hne Hconj Hexcl.
    set (xs := map (fun n => Tree.get_descendants n true) ns) in *.
    assert (xs <> []) as Hxs by by destruct ns.
    rewrite Hexp, (MultiFacts.filter_nodesets self qs st xs Hxs Hconj).
    set (c := fold_left _ _ _).
    destruct (FilterFacts.get_method_then_distinct_live self qs c st q Hlive)
      as (r & st' & Hrun & Hpre & Hnew & Hq').
    eexists r, st', _. repeat (split; [done|]).
    intros row Heq holds table linked Hlinked x.
    assert (x ∈ rows holds table
              (if Filter.distinct self
               then set_distinct (add_condition (Filter.exclude self) c q)
               else add_condition (Filter.exclude self) c q)
            <-> x ∈ rows holds table (add_condition (Filter.exclude self) c q)) as ->.
    { destruct (Filter.distinct self); [apply rows_set_distinct | done]. }
    rewrite rows_add_condition, Hexcl. unfold condition_holds. simpl.
    unfold c. rewrite (MultiFacts.holds_or_of_nodesets holds x _ xs Hxs).
    split; intros [Hx Hsel]; (split; [done|]).
    + destruct Hsel as (ms & Hms & Hh).
      apply in_map_iff in Hms as (n & <- & Hn).
      rewrite Hlinked in Hh. apply existsb_exists in Hh as (m & Hm & Hl).
      apply TreeFacts.In_get_descendants in Hm. eauto.
    + destruct Hsel as (n & m & Hn & Hm & Hl).
      exists (Tree.get_descendants n true). split.
      * apply in_map_iff. eauto.
      * rewrite Hlinked. apply existsb_exists. exists m.
        split; [by apply TreeFacts.In_get_descendants | done].
Qed.

Lemma TreeNodeMultipleChoiceFilter_selects_descendants_witness :
  [Samples.all_objects] !! 0%nat = Some Samples.all_objects /\
  [Samples.europe] <> [] /\
  Filter.conjoined Samples.region_filter = false /\
  Filter.exclude Samples.region_filter = false /\
  exists (r : ref) (st' : store) (q' : Query),
    TreeNodeMultipleChoiceFilter.filter
      MultipleChoiceFilter.get_filter_predicate MultipleChoiceFilter.filter
      Samples.region_filter 0%nat (PList [PNode Samples.europe]) [Samples.all_objects]
    = (Ok r, st') /\
    st' !! r = Some q' /\
    "madrid-dc" ∈ rows Samples.site_holds Samples.sites q'.
Proof.
  split; [reflexivity|]. split; [discriminate|]. split; [reflexivity|]. split; [reflexivity|].
  destruct (proj2 (proj2 (proj2 (TreeNodeMultipleChoiceFilter_selects_descendants
      MultipleChoiceFilter.get_filter_predicate MultipleChoiceFilter.filter
      Samples.region_filter 0%nat [Samples.all_objects] [Samples.europe])))
      Samples.all_objects eq_refl ltac:(discriminate) eq_refl eq_refl)
    as (r & st' & q' & Hrun & _ & _ & Hq' & Hrows).
  exists r, st', q'. split; [exact Hrun|]. split; [exact Hq'|].
  apply (Hrows string _ Samples.site_holds Samples.sites Samples.in_region).
  - reflexivity.
  - split.
    + apply list_elem_of_In. simpl. tauto.
    + exists Samples.europe, Samples.madrid. split; [by left|]. split; [|reflexivity].
      right. apply Tree.below_deeper with (c := Samples.spain).
      * simpl. tauto.
      * apply Tree.below_child. simpl. tauto.
Defined.

(** ** The filters on sample objects *)

Module Examples.
Import Samples.

Example split_pieces :
  split "." "dcim.site" = ["dcim"; "site"] /\
  split "." "invalid" = ["invalid"] /\
  split "." "a..b." = ["a"; ""; "b"; ""] /\
  lower "DCIM.Site" = "dcim.site".
Proof. repeat split. Qed.

Example content_type_too_many_dots :
  ContentTypeFilter.filter lower object_type_filter 0%nat (PStr "dcim.site.extra") [all_objects]
  = (Ok 1%nat, [all_objects; mkQuery [] false true]).
Proof. reflexivity. Qed.

Example content_type_trailing_dot :
  ContentTypeFilter.filter lower object_type_filter 0%nat (PStr "dcim.") [all_objects]
  = (Ok 1%nat,
     [all_objects;
      mkQuery [(false, QAnd (<[ "object_type__model" := PStr "" ]>
                               {[ "object_type__app_label" := PStr "dcim" ]}))]
              false false]).
Proof. reflexivity. Qed.

Example content_type_not_a_string :
  ContentTypeFilter.filter lower object_type_filter 0%nat (PInt 3) [all_objects]
  = (Raise AttributeError, [all_objects]).
Proof. reflexivity. Qed.

Example nullable_null :
  NullableCharFieldFilter.filter "null" Filter.filter serial_filter 0%nat (PStr "null")
    [all_objects]
  = (Ok 1%nat,
     [all_objects; mkQuery [(false, QAnd {[ "serial__isnull" := PBool true ]})] false false]).
Proof. reflexivity. Qed.

Example nullable_other :
  NullableCharFieldFilter.filter "null" Filter.filter serial_filter 0%nat (PStr "abc")
    [all_objects]
  = (Ok 1%nat,
     [all_objects; mkQuery [(false, QAnd {[ "serial__exact" := PStr "abc" ]})] false false]).
Proof. reflexivity. Qed.

Example mac_valid :
  MultiValueMACAddressFilter.filter mac_column_filter mac_address_filter 0%nat
    (PList [PStr "00:1a:2b:3c:4d:5e"]) [all_objects]
  = (Ok 2%nat,
     [all_objects;
      mkQuery [(false, QAnd {[ "mac_address" := PStr "00:1a:2b:3c:4d:5e" ]})] false false;
      mkQuery [(false, QAnd {[ "mac_address" := PStr "00:1a:2b:3c:4d:5e" ]})] true false]).
Proof. reflexivity. Qed.

Example europe_and_below :
  Tree.get_descendants europe true = [europe; france; spain; madrid].
Proof. reflexivity. Qed.

Example region_spain_or_null :
  TreeNodeMultipleChoiceFilter.filter
    MultipleChoiceFilter.get_filter_predicate MultipleChoiceFilter.filter
    region_filter 0%nat (PList [PNode spain; PStr "null"]) [all_objects]
  = (Ok 2%nat,
     [all_objects;
      mkQuery [(false, QOr (QAnd {[ "region__in" := PNodeSet [spain; madrid] ]})
                           (QAnd {[ "region__isnull" := PBool true ]}))] false false;
      mkQuery [(false, QOr (QAnd {[ "region__in" := PNodeSet [spain; madrid] ]})
                           (QAnd {[ "region__isnull" := PBool true ]}))] true false]).
Proof. reflexivity. Qed.

Example region_not_a_node :
  TreeNodeMultipleChoiceFilter.filter
    MultipleChoiceFilter.get_filter_predicate MultipleChoiceFilter.filter
    region_filter 0%nat (PList [PInt 7]) [all_objects]
  = (Raise AttributeError, [all_objects]).
Proof. reflexivity. Qed.

Example sites_in_europe :
  rows site_holds sites
    (mkQuery [(false, QAnd {[ "region__in" := PNodeSet [europe; france; spain; madrid] ]})]
             true false)
  = ["paris"; "madrid-dc"].
Proof. reflexivity. Qed.

(** Iterating a string yields its characters, not its bytes. *)
Example chars_of_text :
  chars "abc" = ["a"; "b"; "c"] /\
  chars "é" = ["é"] /\
  chars "dé.σς" = ["d"; "é"; "."; "σ"; "ς"] /\
  is_ascii "dcim.site" = true /\ is_ascii "é" = false.
Proof. repeat split. Qed.

End Examples.

(** * Further properties of the module *)

(** ** [ContentTypeFilter.filter], by the shape of the value *)

Module ContentTypeMore.
Import Filter.

(** A string with exactly one separator splits into the text before
    it and the text after it. *)
Lemma split_one_sep sep s :
  count_char sep s = 1%nat ->
  exists a b, split sep s = [a; b] /\ s = a +:+ String sep b /\
              count_char sep a = 0%nat /\ count_char sep b = 0%nat.
Proof.
  induction s as [|c s IH]; simpl; [done|].
  destruct (Ascii.eqb_spec c sep) as [->|Hne]; simpl.
  - intros [= H]. exists "", s. rewrite (split_no_sep _ _ H). done.
  - intros H. destruct (IH H) as (a & b & Hs & -> & Ha & Hb).
    exists (String c a), b. rewrite Hs. simpl.
    destruct (Ascii.eqb_spec c sep); [done|]. done.
Qed.

(** ASCII lower-casing commutes with splitting at dots. *)
Lemma split_lower s : split "." (lower s) = map lower (split "." s).
Proof.
  induction s as [|c s IH]; simpl; [done|].
  rewrite lower_ascii_dot. destruct (Ascii.eqb c "."); simpl; [by rewrite IH|].
  rewrite IH. by destruct (split "." s).
Qed.

Lemma not_empty_value str_lower (v : pyval) :
  isinstance_str v = false -> py_in v EMPTY_VALUES = false ->
  ContentTypeFilter.call_lower str_lower v = Raise AttributeError.
Proof. by destruct v. Qed.

End ContentTypeMore.

(** X1: for a non-empty string, the number of dots decides what
    [ContentTypeFilter.filter] does. With exactly one dot the
    lower-cased value is [a.b] with dot-free [a] and [b], and the
    filter calls [qs.filter] with app label [a] and model [b]; for an
    ASCII value these are the ASCII lower-casings of the text before
    and after the dot. With no dot or with more than one the filter
    returns [qs.none()]. *)
Theorem ContentTypeFilter_filter_by_dots
    (str_lower : string -> string)
    (self : Filter.t) (qs : ref) (s : string) (st : store) :
  lower_spec str_lower ->
  s <> "" ->
  (count_char "." s = 1%nat ->
     exists a b : string,
       str_lower s = a +:+ "." +:+ b /\
       count_char "." a = 0%nat /\ count_char "." b = 0%nat /\
       ContentTypeFilter.filter str_lower self qs (PStr s) st
       = QuerySet.filter
           (QAnd (<[ Filter.field_name self +:+ "__model" := PStr b ]>
                    {[ Filter.field_name self +:+ "__app_label" := PStr a ]}))
           qs st /\
       (is_ascii s = true ->
        exists a0 b0 : string,
          s = a0 +:+ "." +:+ b0 /\ a = lower a0 /\ b = lower b0)) /\
  (count_char "." s <> 1%nat ->
     ContentTypeFilter.filter str_lower self qs (PStr s) st = QuerySet.none qs st).
Proof.
  intros Hlow Hs. split.
  - intros Hc.
    assert (count_char "." (str_lower s) = 1%nat) as Hc'
      by by rewrite (lower_keeps_dots _ Hlow).
    destruct (ContentTypeMore.split_one_sep "." _ Hc') as (a & b & Hsp & Heq & Ha & Hb).
    exists a, b. split; [done|]. split; [done|]. split; [done|]. split.
    + rewrite ContentTypeFacts.filter_str by done. by rewrite Hsp.
    + intros Hascii.
      destruct (ContentTypeMore.split_one_sep "." s Hc) as (a0 & b0 & Hsp0 & Heq0 & _).
      exists a0, b0. split; [done|].
      rewrite (lower_on_ascii _ Hlow s Hascii), ContentTypeMore.split_lower, Hsp0 in Hsp.
      simpl in Hsp. by injection Hsp as -> ->.
  - intros Hc. by rewrite (ContentTypeFacts.filter_not_one_dot _ _ _ _ Hlow).
Qed.

Lemma ContentTypeFilter_filter_by_dots_witness :
  lower_spec lower /\
  "Dcim.Site" <> "" /\ count_char "." "Dcim.Site" = 1%nat /\
  exists a b : string,
    lower "Dcim.Site" = a +:+ "." +:+ b /\
    ContentTypeFilter.filter lower Samples.object_type_filter 0%nat (PStr "Dcim.Site")
      [Samples.all_objects]
    = QuerySet.filter
        (QAnd (<[ "object_type__model" := PStr b ]>
                 {[ "object_type__app_label" := PStr a ]}))
        0%nat [Samples.all_objects].
Proof.
  split; [apply ContentTypeFacts.lower_spec_lower|].
  split; [discriminate|]. split; [reflexivity|].
  destruct (proj1 (ContentTypeFilter_filter_by_dots lower Samples.object_type_filter 0%nat
                     "Dcim.Site" [Samples.all_objects]
                     ContentTypeFacts.lower_spec_lower ltac:(discriminate)) eq_refl)
    as (a & b & Heq & _ & _ & Hrun & _).
  exists a, b. split; [exact Heq | exact Hrun].
Defined.

(** X2: a value that is neither empty nor a string makes
    [ContentTypeFilter.filter] raise [AttributeError] (only
    [ValueError] is caught), and no queryset is created. *)
Theorem ContentTypeFilter_filter_not_a_string
    (str_lower : string -> string)
    (self : Filter.t) (qs : ref) (value : pyval) (st : store) :
  isinstance_str value = false ->
  py_in value EMPTY_VALUES = false ->
  ContentTypeFilter.filter str_lower self qs value st = (Raise AttributeError, st).
Proof.
  intros Hstr Hempty. unfold ContentTypeFilter.filter. rewrite Hempty.
  by rewrite (ContentTypeMore.not_empty_value str_lower value Hstr Hempty).
Qed.

Lemma ContentTypeFilter_filter_not_a_string_witness :
  isinstance_str (PList [PStr "dcim.site"]) = false /\
  py_in (PList [PStr "dcim.site"]) EMPTY_VALUES = false /\
  ContentTypeFilter.filter lower Samples.object_type_filter 0%nat (PList [PStr "dcim.site"])
    [Samples.all_objects]
  = (Raise AttributeError, [Samples.all_objects]).
Proof.
  split; [reflexivity|]. split; [reflexivity|].
  apply ContentTypeFilter_filter_not_a_string; reflexivity.
Defined.

(** X3: on a live queryset and a string value,
    [ContentTypeFilter.filter] never raises; it returns [qs] itself
    and leaves the store alone, or it creates exactly one queryset
    and returns that. *)
Theorem ContentTypeFilter_filter_string_returns
    (str_lower : string -> string)
    (self : Filter.t) (st : store) (qs : ref) (q : Query) (s : string) :
  st !! qs = Some q ->
  exists (r : ref) (st' : store),
    ContentTypeFilter.filter str_lower self qs (PStr s) st = (Ok r, st') /\
    ((r = qs /\ st' = st) \/ (r = length st /\ exists q', st' = st ++ [q'])).
Proof.
  intros Hlive. destruct (String.eqb_spec s "") as [->|Hs].
  - exists qs, st. split; [done|]. by left.
  - rewrite ContentTypeFacts.filter_str by done.
    destruct (split "." (str_lower s)) as [|a [|b [|c l]]];
      unfold QuerySet.none, QuerySet.filter; rewrite (chain_live _ _ _ _ Hlive);
      eexists _, _; (split; [done|]); right; eauto.
Qed.

Lemma ContentTypeFilter_filter_string_returns_witness :
  [Samples.all_objects] !! 0%nat = Some Samples.all_objects /\
  exists (r : ref) (st' : store),
    ContentTypeFilter.filter lower Samples.object_type_filter 0%nat (PStr "a.b.c")
      [Samples.all_objects] = (Ok r, st').
Proof.
  split; [reflexivity|].
  destruct (ContentTypeFilter_filter_string_returns lower Samples.object_type_filter
              [Samples.all_objects] 0%nat Samples.all_objects "a.b.c" eq_refl)
    as (r & st' & Hrun & _).
  by exists r, st'.
Defined.

(** X4: [ContentTypeFilter.filter] reads nothing of the filter object
    but its field name: it calls [qs.filter] itself, so an excluding
    or distinct filter, or one with another lookup expression, gives
    the same queryset as any other filter on that field; the
    queryset returned has the conditions of [qs] and at most one more,
    which is not negated, and is distinct only if [qs] was. *)
Theorem ContentTypeFilter_filter_only_field_name
    (str_lower : string -> string)
    (self : Filter.t) (st : store) (qs : ref) (q : Query) (value : pyval) :
  st !! qs = Some q ->
  (forall other : Filter.t,
     Filter.field_name other = Filter.field_name self ->
     ContentTypeFilter.filter str_lower other qs value st
     = ContentTypeFilter.filter str_lower self qs value st) /\
  (forall r st', ContentTypeFilter.filter str_lower self qs value st = (Ok r, st') ->
     exists q', st' !! r = Some q' /\
       is_distinct q' = is_distinct q /\
       (conditions q' = conditions q \/
        exists c, conditions q' = conditions q ++ [(false, c)])).
Proof.
  intros Hlive. split.
  - intros other Hname. unfold ContentTypeFilter.filter. by rewrite Hname.
  - intros r st'. unfold ContentTypeFilter.filter.
    destruct (py_in value EMPTY_VALUES).
    { intros [= <- <-]. exists q. eauto. }
    destruct (rbind _ _) as [[a b]|[]]; try done;
      unfold QuerySet.filter, QuerySet.none; rewrite (chain_live _ _ _ _ Hlive);
      intros [= <- <-]; eexists; (split; [by apply list_lookup_middle|]);
      simpl; eauto.
Qed.

Lemma ContentTypeFilter_filter_only_field_name_witness :
  [Samples.all_objects] !! 0%nat = Some Samples.all_objects /\
  ContentTypeFilter.filter lower
    (Filter.mk "object_type" "in" true true true "none" (Some "slug"))
    0%nat (PStr "dcim.site") [Samples.all_objects]
  = ContentTypeFilter.filter lower Samples.object_type_filter 0%nat (PStr "dcim.site")
      [Samples.all_objects].
Proof.
  split; [reflexivity|].
  apply (proj1 (ContentTypeFilter_filter_only_field_name lower Samples.object_type_filter
                  [Samples.all_objects] 0%nat Samples.all_objects (PStr "dcim.site")
                  eq_refl)).
  reflexivity.
Defined.

(** ** [multivalue_field_factory], on inputs of every shape *)

Module FieldMore.

Lemma filter_truthy_idem (vs : list pyval) :
  List.filter truthy (List.filter truthy vs) = List.filter truthy vs.
Proof.
  induction vs as [|v vs IH]; simpl; [done|].
  destruct (truthy v) eqn:E; simpl; [by rewrite E, IH | done].
Qed.

Lemma filter_truthy_none (vs : list pyval) :
  Forall (fun v => truthy v = false) vs -> List.filter truthy vs = [].
Proof. induction 1 as [|v vs Hv _ IH]; simpl; [done|]. by rewrite Hv. Qed.

Lemma chars_cons c d s :
  chars (String c (String d s))
  = if is_continuation d
    then match chars (String d s) with
         | first :: rest => String c first :: rest
         | [] => [String c EmptyString]
         end
    else String c EmptyString :: chars (String d s).
Proof. reflexivity. Qed.

(** Iterating a string yields no empty string. *)
Lemma chars_nonempty (s : string) : Forall (fun g => g <> "") (chars s).
Proof.
  induction s as [|c s IH]; [constructor|].
  destruct s as [|d s]; [by repeat constructor|].
  rewrite chars_cons. destruct (is_continuation d).
  - destruct (chars (String d s)) as [|first rest]; [by repeat constructor|].
    inversion_clear IH. by constructor.
  - by constructor.
Qed.

(** The characters, put together again, are the string. *)
Lemma chars_concat (s : string) : fold_right String.append "" (chars s) = s.
Proof.
  induction s as [|c s IH]; [done|].
  destruct s as [|d s]; [done|].
  rewrite chars_cons. destruct (is_continuation d).
  - destruct (chars (String d s)) as [|first rest]; [done|].
    change (String c (first +:+ fold_right String.append "" rest) = String c (String d s)).
    f_equal. exact IH.
  - change (String c (fold_right String.append "" (chars (String d s)))
            = String c (String d s)).
    f_equal. exact IH.
Qed.

(** A character takes at least one byte. *)
Lemma length_chars_le (s : string) : (length (chars s) <= String.length s)%nat.
Proof.
  induction s as [|c s IH]; [done|].
  destruct s as [|d s]; [done|].
  rewrite chars_cons. destruct (is_continuation d).
  - destruct (chars (String d s)) as [|first rest]; simpl in IH |- *; lia.
  - simpl in IH |- *. lia.
Qed.

Lemma ascii_not_continuation (c : ascii) :
  (N_of_ascii c <? 128)%N = true -> is_continuation c = false.
Proof.
  unfold is_continuation. intros H%N.ltb_lt.
  apply andb_false_iff. left. apply N.leb_gt. lia.
Qed.

(** An ASCII string has one character per byte. *)
Lemma length_chars_ascii (s : string) :
  is_ascii s = true -> length (chars s) = String.length s.
Proof.
  induction s as [|c s IH]; [done|].
  destruct s as [|d s]; [done|].
  intros [_ H]%andb_true_iff. rewrite chars_cons.
  pose proof H as [Hd _]%andb_true_iff.
  rewrite (ascii_not_continuation d Hd).
  change (S (length (chars (String d s))) = S (String.length (String d s))).
  by rewrite (IH H).
Qed.

Lemma filter_truthy_all (vs : list pyval) :
  Forall (fun v => truthy v = true) vs -> List.filter truthy vs = vs.
Proof. induction 1 as [|v vs Hv _ IH]; simpl; [done|]. by rewrite Hv, IH. Qed.

Lemma filter_truthy_chars (s : string) :
  List.filter truthy (map PStr (chars s)) = map PStr (chars s).
Proof.
  apply filter_truthy_all. apply Forall_map.
  eapply Forall_impl; [apply chars_nonempty|].
  intros g Hg. simpl. by destruct (String.eqb_spec g "").
Qed.

Lemma map_r_length {A B} (f : A -> result B) l l' :
  map_r f l = Ok l' -> length l' = length l.
Proof. intros H%map_r_Ok. symmetry. by eapply Forall2_length. Qed.

(** The comprehension stops at the first member that raises. *)
Lemma map_r_first_failure {A B} (f : A -> result B) l1 x l2 e :
  Forall (fun y => exists z, f y = Ok z) l1 -> f x = Raise e ->
  map_r f (l1 ++ x :: l2) = Raise e.
Proof.
  intros H Hx. induction H as [|y l1 [z Hy] _ IH]; simpl.
  - by rewrite Hx.
  - by rewrite Hy, IH.
Qed.

Lemma for_r_first_failure {A} (f : A -> result unit) l1 x l2 e :
  Forall (fun y => f y = Ok tt) l1 -> f x = Raise e ->
  for_r f (l1 ++ x :: l2) = Raise e.
Proof.
  intros H Hx. induction H as [|y l1 Hy _ IH]; simpl.
  - by rewrite Hx.
  - by rewrite Hy.
Qed.

Lemma filter_truthy_app (l1 l2 : list pyval) :
  List.filter truthy (l1 ++ l2) = List.filter truthy l1 ++ List.filter truthy l2.
Proof. induction l1 as [|v l1 IH]; simpl; [done|]. destruct (truthy v); simpl; by rewrite IH. Qed.

End FieldMore.

(** X5: whatever it is given, [to_python] of the multi-value field
    returns a list when it returns; for a list input the result has
    one member per non-empty entry, in particular no more members
    than the input has entries. *)
Theorem multivalue_to_python_returns_list (F : field_class) (self : instance F) :
  let MV := multivalue_field_factory F in
  (forall value w, to_python MV self value = Ok w -> exists l, w = PList l) /\
  (forall vs l, to_python MV self (PList vs) = Ok (PList l) ->
     length l = length (List.filter truthy vs) /\ (length l <= length vs)%nat).
Proof.
  intros MV. split.
  - intros value w. simpl. destruct (negb (truthy value)).
    + intros [= <-]. eauto.
    + destruct (py_iter value) as [vs|e]; simpl; [|done].
      destruct (map_r _ _) as [l|e]; simpl; [|done].
      intros [= <-]. eauto.
  - intros vs l. unfold MV. rewrite FieldFacts.to_python_list.
    destruct (map_r _ _) as [l'|e] eqn:E; simpl; [|done].
    intros [= <-]. apply FieldMore.map_r_length in E. split; [done|].
    rewrite E. apply filter_length_le.
Qed.

Lemma multivalue_to_python_returns_list_witness :
  to_python (multivalue_field_factory Samples.IntegerField) true
    (PList [PStr "7"; PStr ""; PStr "42"]) = Ok (PList [PInt 7; PInt 42]) /\
  length [PInt 7; PInt 42] = length (List.filter truthy [PStr "7"; PStr ""; PStr "42"]).
Proof.
  split; [reflexivity|].
  apply (proj2 (multivalue_to_python_returns_list Samples.IntegerField true)
           [PStr "7"; PStr ""; PStr "42"] [PInt 7; PInt 42]).
  reflexivity.
Defined.

(** X6: the empty entries of a list never reach the field: converting
    a list gives what converting its non-empty entries gives, and a
    list of empty entries only converts to [[]], even for a field
    whose [to_python] accepts nothing. *)
Theorem multivalue_to_python_drops_empty
    (F : field_class) (self : instance F) (vs : list pyval) :
  let MV := multivalue_field_factory F in
  to_python MV self (PList vs) = to_python MV self (PList (List.filter truthy vs)) /\
  (Forall (fun v => truthy v = false) vs -> to_python MV self (PList vs) = Ok (PList [])).
Proof.
  intros MV. unfold MV. rewrite !FieldFacts.to_python_list. split.
  - by rewrite FieldMore.filter_truthy_idem.
  - intros H. by rewrite (FieldMore.filter_truthy_none vs H).
Qed.

Lemma multivalue_to_python_drops_empty_witness :
  Forall (fun v => truthy v = false) [PStr ""; PNone; PStr ""] /\
  to_python (multivalue_field_factory Samples.IntegerField) true
    (PList [PStr ""; PNone; PStr ""]) = Ok (PList []).
Proof.
  split; [by repeat constructor|].
  apply (proj2 (multivalue_to_python_drops_empty Samples.IntegerField true
                  [PStr ""; PNone; PStr ""])).
  by repeat constructor.
Defined.

(** X7: a non-empty string given in place of a list is taken apart:
    [to_python] coerces its characters one by one, so the result has
    one member per character of the string. A character may take
    several bytes of the encoding, so the members are at most as many
    as the bytes, and exactly as many for an ASCII string. *)
Theorem multivalue_to_python_bare_string
    (F : field_class) (self : instance F) (s : string) :
  s <> "" ->
  let MV := multivalue_field_factory F in
  to_python MV self (PStr s)
  = rbind (map_r (to_python F (new F)) (map PStr (chars s))) (fun l => Ok (PList l)) /\
  (forall l, to_python MV self (PStr s) = Ok (PList l) ->
     length l = length (chars s) /\
     (length l <= String.length s)%nat /\
     (is_ascii s = true -> length l = String.length s)).
Proof.
  intros Hs MV.
  assert (to_python MV self (PStr s)
          = rbind (map_r (to_python F (new F)) (map PStr (chars s)))
                  (fun l => Ok (PList l))) as Heq.
  { simpl. destruct (String.eqb_spec s ""); [done|]. simpl.
    by rewrite FieldMore.filter_truthy_chars. }
  split; [exact Heq|].
  intros l. rewrite Heq. destruct (map_r _ _) as [l'|e] eqn:E; simpl; [|done].
  intros [= <-]. apply FieldMore.map_r_length in E.
  rewrite E, length_map. split; [done|]. split.
  - apply FieldMore.length_chars_le.
  - apply FieldMore.length_chars_ascii.
Qed.

Lemma multivalue_to_python_bare_string_witness :
  "42" <> "" /\
  to_python (multivalue_field_factory Samples.IntegerField) true (PStr "42")
  = Ok (PList [PInt 4; PInt 2]) /\
  "né" <> "" /\
  to_python (multivalue_field_factory Samples.TextField) tt (PStr "né")
  = Ok (PList [PStr "n"; PStr "é"]).
Proof.
  split; [discriminate|]. split.
  - rewrite (proj1 (multivalue_to_python_bare_string Samples.IntegerField true "42"
                      ltac:(discriminate))).
    reflexivity.
  - split; [discriminate|]. reflexivity.
Defined.

(** X8: a value that is not empty and cannot be iterated (a non-zero
    integer, [True], a model instance) makes [to_python] raise
    [TypeError]; [validate] and [run_validators] raise it on every
    value that cannot be iterated, [None] included. *)
Theorem multivalue_field_not_iterable
    (F : field_class) (self : instance F) (value : pyval) :
  py_iter value = Raise TypeError ->
  let MV := multivalue_field_factory F in
  (truthy value = true -> to_python MV self value = Raise TypeError) /\
  validate MV self value = Raise TypeError /\
  run_validators MV self value = Raise TypeError.
Proof.
  intros Hiter MV. simpl. rewrite Hiter. simpl.
  split; [|done]. by intros ->.
Qed.

Lemma multivalue_field_not_iterable_witness :
  py_iter (PInt 5) = Raise TypeError /\ truthy (PInt 5) = true /\
  to_python (multivalue_field_factory Samples.IntegerField) true (PInt 5) = Raise TypeError.
Proof.
  split; [reflexivity|]. split; [reflexivity|].
  apply (multivalue_field_not_iterable Samples.IntegerField true (PInt 5) eq_refl).
  reflexivity.
Defined.

(** X9: the first invalid entry decides: when the entries before [x]
    pass and [x] does not, each of the three methods raises what the
    field raises on [x], whatever comes after [x]. *)
Theorem multivalue_field_first_failure
    (F : field_class) (self : instance F) (l1 l2 : list pyval) (x : pyval) (e : exn) :
  let MV := multivalue_field_factory F in
  (Forall (fun y => truthy y = true -> exists z, to_python F (new F) y = Ok z) l1 ->
   truthy x = true -> to_python F (new F) x = Raise e ->
   to_python MV self (PList (l1 ++ x :: l2)) = Raise e) /\
  (Forall (fun y => validate F self y = Ok tt) l1 -> validate F self x = Raise e ->
   validate MV self (PList (l1 ++ x :: l2)) = Raise e) /\
  (Forall (fun y => run_validators F self y = Ok tt) l1 -> run_validators F self x = Raise e ->
   run_validators MV self (PList (l1 ++ x :: l2)) = Raise e).
Proof.
  intros MV. split; [|split].
  - intros H1 Hx He. unfold MV. rewrite FieldFacts.to_python_list.
    rewrite FieldMore.filter_truthy_app. simpl. rewrite Hx.
    rewrite (FieldMore.map_r_first_failure _ _ _ _ e); [done| |done].
    apply Forall_forall. intros y Hy%list_elem_of_In%filter_In.
    destruct Hy as [Hy Ht]. rewrite Forall_forall in H1.
    apply H1; [by apply list_elem_of_In | done].
  - intros H1 Hx. simpl. by apply FieldMore.for_r_first_failure.
  - intros H1 Hx. simpl. by apply FieldMore.for_r_first_failure.
Qed.

Lemma multivalue_field_first_failure_witness :
  Forall (fun y => truthy y = true ->
            exists z, to_python Samples.IntegerField true y = Ok z) [PStr "1"; PStr ""] /\
  truthy (PStr "x") = true /\
  to_python Samples.IntegerField true (PStr "x") = Raise ValidationError /\
  to_python (multivalue_field_factory Samples.IntegerField) false
    (PList ([PStr "1"; PStr ""] ++ PStr "x" :: [PStr "y"; PStr "3"]))
  = Raise ValidationError.
Proof.
  assert (Forall (fun y => truthy y = true ->
            exists z, to_python Samples.IntegerField true y = Ok z) [PStr "1"; PStr ""]) as H.
  { repeat constructor; [by exists (PInt 1) | by exists PNone]. }
  split; [exact H|]. split; [reflexivity|]. split; [reflexivity|].
  exact (proj1 (multivalue_field_first_failure Samples.IntegerField false
                  [PStr "1"; PStr ""] [PStr "y"; PStr "3"] (PStr "x") ValidationError)
               H eq_refl eq_refl).
Defined.

(** ** [MultiValueMACAddressFilter.filter] and the other exceptions *)

(** X10: [MultiValueMACAddressFilter.filter] catches [ValidationError]
    only: any other exception of [super().filter] comes out as it
    was raised; and on a live queryset, with a [super().filter] that
    changes no object, the filter raises exactly the exceptions other
    than [ValidationError] that [super().filter] raises. *)
Theorem MultiValueMACAddressFilter_filter_raises
    (super_filter : Filter.t -> ref -> pyval -> M ref)
    (self : Filter.t) (qs : ref) (value : pyval) (st : store) :
  let filter := MultiValueMACAddressFilter.filter super_filter in
  (forall e st', super_filter self qs value st = (Raise e, st') -> e <> ValidationError ->
     filter self qs value st = (Raise e, st')) /\
  (forall q, st !! qs = Some q -> preserves (super_filter self qs value) ->
     forall e, (filter self qs value st).1 = Raise e <->
               (super_filter self qs value st).1 = Raise e /\ e <> ValidationError).
Proof.
  intros filter. unfold filter, MultiValueMACAddressFilter.filter, try_except. split.
  - intros e st' -> Hne. by destruct (decide (e = ValidationError)).
  - intros q Hlive Hpre e. specialize (Hpre st).
    destruct (super_filter self qs value st) as [[r|e'] st1]; simpl in *.
    + split; [done | by intros [? _]].
    + destruct (decide (e' = ValidationError)) as [->|Hne].
      * unfold QuerySet.none.
        rewrite (chain_live _ _ _ q) by by eapply prefix_lookup_Some.
        simpl. split; [done|]. by intros [[= <-] ?].
      * simpl. split; [intros [= <-]; done | by intros [? _]].
Qed.

Lemma MultiValueMACAddressFilter_filter_raises_witness :
  Samples.mac_column_filter Samples.mac_address_filter 0%nat (PInt 5) [Samples.all_objects]
  = (Raise TypeError, [Samples.all_objects]) /\
  TypeError <> ValidationError /\
  MultiValueMACAddressFilter.filter Samples.mac_column_filter
    Samples.mac_address_filter 0%nat (PInt 5) [Samples.all_objects]
  = (Raise TypeError, [Samples.all_objects]).
Proof.
  split; [reflexivity|]. split; [discriminate|].
  apply (proj1 (MultiValueMACAddressFilter_filter_raises Samples.mac_column_filter
                  Samples.mac_address_filter 0%nat (PInt 5) [Samples.all_objects])
               TypeError [Samples.all_objects] eq_refl).
  discriminate.
Defined.

(** ** [TreeNodeMultipleChoiceFilter.filter] on values it cannot expand *)

(** X11: a value that cannot be iterated, such as [None], makes
    [TreeNodeMultipleChoiceFilter.filter] raise before anything else
    happens: whatever [super().filter] is, the outcome is the
    exception of the iteration and the store is as before. *)
Theorem TreeNodeMultipleChoiceFilter_filter_not_iterable
    (super_get_filter_predicate : Filter.t -> pyval -> kwargs)
    (super_filter : (Filter.t -> pyval -> kwargs) -> Filter.t -> ref -> pyval -> M ref)
    (self : Filter.t) (qs : ref) (value : pyval) (e : exn) (st : store) :
  py_iter value = Raise e ->
  TreeNodeMultipleChoiceFilter.filter super_get_filter_predicate super_filter
    self qs value st = (Raise e, st).
Proof.
  intros H. unfold TreeNodeMultipleChoiceFilter.filter, bind, lift. by rewrite H.
Qed.

Lemma TreeNodeMultipleChoiceFilter_filter_not_iterable_witness :
  py_iter PNone = Raise TypeError /\
  TreeNodeMultipleChoiceFilter.filter
    MultipleChoiceFilter.get_filter_predicate MultipleChoiceFilter.filter
    Samples.region_filter 0%nat PNone [Samples.all_objects]
  = (Raise TypeError, [Samples.all_objects]).
Proof.
  split; [reflexivity|].
  by apply TreeNodeMultipleChoiceFilter_filter_not_iterable.
Defined.

(** X12: an entry that is neither a string nor a model instance
    ([None], a boolean, a number such as a primary key, a list, a
    tuple, a dict) has no [get_descendants]: when the entries before
    it are strings and nodes, the filter raises [AttributeError],
    [super().filter] is not called and the store is as before. *)
Theorem TreeNodeMultipleChoiceFilter_filter_bad_entry
    (super_get_filter_predicate : Filter.t -> pyval -> kwargs)
    (super_filter : (Filter.t -> pyval -> kwargs) -> Filter.t -> ref -> pyval -> M ref)
    (self : Filter.t) (qs : ref) (l1 l2 : list pyval) (x : pyval) (st : store) :
  Forall (fun v => isinstance_str v = true \/ exists n, v = PNode n) l1 ->
  (x = PNone \/ (exists b, x = PBool b) \/ (exists z, x = PInt z) \/
   (exists l, x = PList l) \/ (exists l, x = PTuple l) \/ (exists d, x = PDict d)) ->
  TreeNodeMultipleChoiceFilter.filter super_get_filter_predicate super_filter
    self qs (PList (l1 ++ x :: l2)) st = (Raise AttributeError, st).
Proof.
  intros H1 Hx. unfold TreeNodeMultipleChoiceFilter.filter, bind, lift. simpl.
  rewrite (FieldMore.map_r_first_failure _ l1 x l2 AttributeError); [done| |].
  - apply Forall_forall. intros v Hv. rewrite Forall_forall in H1.
    destruct (H1 v Hv) as [Hs|[n ->]]; [|by eexists].
    destruct v; try done. by eexists.
  - destruct Hx as [->|[[b ->]|[[z ->]|[[l ->]|[[l ->]|[d ->]]]]]]; done.
Qed.

Lemma TreeNodeMultipleChoiceFilter_filter_bad_entry_witness :
  Forall (fun v => isinstance_str v = true \/ exists n, v = PNode n)
    [PNode Samples.spain; PStr "null"] /\
  TreeNodeMultipleChoiceFilter.filter
    MultipleChoiceFilter.get_filter_predicate MultipleChoiceFilter.filter
    Samples.region_filter 0%nat
    (PList ([PNode Samples.spain; PStr "null"] ++ PInt 3 :: [PNode Samples.france]))
    [Samples.all_objects]
  = (Raise AttributeError, [Samples.all_objects]).
Proof.
  assert (Forall (fun v => isinstance_str v = true \/ exists n, v = PNode n)
            [PNode Samples.spain; PStr "null"]) as H.
  { constructor; [right; by eexists|].
    constructor; [by left|]. constructor. }
  split; [exact H|].
  apply TreeNodeMultipleChoiceFilter_filter_bad_entry; [exact H|].
  right. right. left. by exists 3.
Defined.

(** ** [NullableCharFieldFilter.filter] of an excluding filter *)

(** X13: for an excluding filter ([exclude=True]) the null value
    makes [NullableCharFieldFilter.filter] call [qs.exclude] with
    [<field_name>__isnull = True]: the queryset returned is new and
    has exactly the rows of [qs] whose field is not null. *)
Theorem NullableCharFieldFilter_filter_exclude_null
    (FILTERS_NULL_CHOICE_VALUE : string)
    (super_filter : Filter.t -> ref -> pyval -> M ref)
    (self : Filter.t) (st : store) (qs : ref) (q : Query) :
  st !! qs = Some q ->
  Filter.exclude self = true ->
  exists (r : ref) (st' : store) (q' : Query),
    NullableCharFieldFilter.filter FILTERS_NULL_CHOICE_VALUE super_filter
      self qs (PStr FILTERS_NULL_CHOICE_VALUE) st = (Ok r, st') /\
    st !! r = None /\ st' !! r = Some q' /\ st' !! qs = Some q /\
    forall (row : Type) (Heq : EqDecision row)
           (holds : row -> string -> pyval -> bool) (table : list row) (x : row),
      x ∈ rows holds table q' <->
      x ∈ rows holds table q /\
      holds x (Filter.field_name self +:+ "__isnull") (PBool true) = false.
Proof.
  intros Hlive Hex. unfold NullableCharFieldFilter.filter. simpl.
  rewrite String.eqb_refl. simpl.
  set (isnull := QAnd _).
  destruct (FilterFacts.get_method_then_distinct_live self qs isnull st q Hlive)
    as (r & st' & Hrun & Hpre & Hnew & Hq').
  eexists r, st', _. split; [done|]. split; [done|]. split; [done|].
  split; [by eapply prefix_lookup_Some|].
  intros row Heq holds table x.
  assert (x ∈ rows holds table
            (if Filter.distinct self
             then set_distinct (add_condition (Filter.exclude self) isnull q)
             else add_condition (Filter.exclude self) isnull q)
          <-> x ∈ rows holds table (add_condition (Filter.exclude self) isnull q)) as ->.
  { destruct (Filter.distinct self); [apply rows_set_distinct | done]. }
  rewrite rows_add_condition, Hex. unfold condition_holds, isnull. simpl.
  rewrite kw_holds_singleton. by rewrite negb_true_iff.
Qed.

Lemma NullableCharFieldFilter_filter_exclude_null_witness :
  [Samples.all_objects] !! 0%nat = Some Samples.all_objects /\
  Filter.exclude (Filter.mk "serial" "exact" true false false "null" None) = true /\
  exists (r : ref) (st' : store),
    NullableCharFieldFilter.filter "null" Filter.filter
      (Filter.mk "serial" "exact" true false false "null" None)
      0%nat (PStr "null") [Samples.all_objects] = (Ok r, st').
Proof.
  split; [reflexivity|]. split; [reflexivity|].
  destruct (NullableCharFieldFilter_filter_exclude_null "null" Filter.filter
              (Filter.mk "serial" "exact" true false false "null" None)
              [Samples.all_objects] 0%nat Samples.all_objects eq_refl eq_refl)
    as (r & st' & q' & Hrun & _).
  by exists r, st'.
Defined.

(** ** [NumericArrayFilter.filter] and empty values *)

Module ArrayMore.
Import Filter.

(** The members of [EMPTY_VALUES] are falsy, and so is whatever equals
    one of them. *)
Lemma empty_value_falsy (v : pyval) :
  py_in v EMPTY_VALUES = true -> truthy v = false.
Proof.
  destruct v as [|b|z|s|l|l|d|n|ns]; try done.
  - unfold py_in. simpl. rewrite !orb_false_r. by intros ->.
  - by destruct l.
  - by destruct l.
  - by destruct d as [|[k x] d].
Qed.

Lemma singleton_not_empty_value (v : pyval) : py_in (PList [v]) EMPTY_VALUES = false.
Proof. done. Qed.

Lemma wrapped_keeps_emptiness (v : pyval) :
  py_in (NumericArrayFilter.wrapped v) EMPTY_VALUES = py_in v EMPTY_VALUES /\
  truthy (NumericArrayFilter.wrapped v) = truthy v.
Proof.
  unfold NumericArrayFilter.wrapped. destruct (truthy v) eqn:E; [|done].
  split; [|done]. rewrite singleton_not_empty_value.
  destruct (py_in v EMPTY_VALUES) eqn:Hin; [|done].
  apply empty_value_falsy in Hin. congruence.
Qed.

End ArrayMore.

(** X14: the wrapping of [NumericArrayFilter.filter] never changes
    whether the value counts as empty: the value handed to
    [super().filter] is in [EMPTY_VALUES] exactly when the input is,
    and is truthy exactly when the input is. *)
Theorem NumericArrayFilter_wrapped_keeps_emptiness (v : pyval) :
  py_in (NumericArrayFilter.wrapped v) EMPTY_VALUES = py_in v EMPTY_VALUES /\
  truthy (NumericArrayFilter.wrapped v) = truthy v.
Proof. apply ArrayMore.wrapped_keeps_emptiness. Qed.

(** X15: over the library's single-value filter,
    [NumericArrayFilter.filter] on a live queryset returns [qs]
    itself for a value in [EMPTY_VALUES] ([None], the empty string),
    and for a number [z] other than zero, the kind of value the
    number filter's field hands over, a new queryset carrying the
    lookup [<field_name>__<lookup_expr> = [z]], whose rows, for a
    non-excluding filter, are the rows of [qs] on which that lookup
    holds. *)
Theorem NumericArrayFilter_over_library_filter
    (self : Filter.t) (st : store) (qs : ref) (q : Query) :
  st !! qs = Some q ->
  let lookup := Filter.field_name self +:+ "__" +:+ Filter.lookup_expr self in
  (forall v : pyval,
     py_in v EMPTY_VALUES = true ->
     NumericArrayFilter.filter Filter.filter self qs v st = (Ok qs, st)) /\
  (forall z : Z,
     z <> 0 ->
     exists (r : ref) (st' : store) (q' : Query),
       NumericArrayFilter.filter Filter.filter self qs (PInt z) st = (Ok r, st') /\
       st !! r = None /\ st' !! r = Some q' /\ st' !! qs = Some q /\
       In (Filter.exclude self, QAnd {[ lookup := PList [PInt z] ]}) (conditions q') /\
       forall (row : Type) (Heq : EqDecision row)
              (holds : row -> string -> pyval -> bool) (table : list row) (x : row),
         Filter.exclude self = false ->
         x ∈ rows holds table q' <->
         x ∈ rows holds table q /\ holds x lookup (PList [PInt z]) = true).
Proof.
  intros Hlive lookup. split.
  - intros v Hin. unfold NumericArrayFilter.filter, Filter.filter.
    by rewrite (proj1 (ArrayMore.wrapped_keeps_emptiness v)), Hin.
  - intros z Hz.
    assert (truthy (PInt z) = true) as Hv.
    { simpl. by destruct (Z.eqb_spec z 0). }
    unfold NumericArrayFilter.filter, NumericArrayFilter.wrapped. rewrite Hv.
    destruct (FilterFacts.Filter_filter_live self qs (PList [PInt z]) st q Hlive eq_refl)
      as (r & st' & Hrun & Hpre & Hnew & Hq').
    eexists r, st', _. split; [exact Hrun|]. split; [done|]. split; [exact Hq'|].
    split; [by eapply prefix_lookup_Some|]. split.
    + simpl. apply in_or_app. right. by left.
    + intros row Heq holds table x Hex.
      rewrite rows_add_condition, Hex. unfold condition_holds. simpl.
      rewrite kw_holds_singleton.
      assert (x ∈ rows holds table (if Filter.distinct self then set_distinct q else q)
              <-> x ∈ rows holds table q) as ->; [|done].
      destruct (Filter.distinct self); [apply rows_set_distinct | done].
Qed.

Lemma NumericArrayFilter_over_library_filter_witness :
  [Samples.all_objects] !! 0%nat = Some Samples.all_objects /\
  65000 <> 0 /\
  exists (r : ref) (st' : store) (q' : Query),
    NumericArrayFilter.filter Filter.filter Samples.asns_filter 0%nat (PInt 65000)
      [Samples.all_objects] = (Ok r, st') /\
    st' !! r = Some q' /\
    "acme" ∈ rows Samples.provider_holds Samples.providers q' /\
    "globex" ∉ rows Samples.provider_holds Samples.providers q'.
Proof.
  split; [reflexivity|]. split; [discriminate|].
  destruct (proj2 (NumericArrayFilter_over_library_filter Samples.asns_filter
                     [Samples.all_objects] 0%nat Samples.all_objects eq_refl)
              65000 ltac:(discriminate))
    as (r & st' & q' & Hrun & _ & Hq' & _ & _ & Hrows).
  exists r, st', q'. split; [exact Hrun|]. split; [exact Hq'|]. split.
  - apply (Hrows string _ Samples.provider_holds Samples.providers "acme" eq_refl).
    split; [|reflexivity]. apply list_elem_of_In. simpl. tauto.
  - intros H.
    apply (Hrows string _ Samples.provider_holds Samples.providers "globex" eq_refl) in H.
    destruct H as [_ H]. discriminate H.
Defined.

(** ** [TreeNodeMultipleChoiceFilter] over the library's multi-value filter *)

Module MixedFacts.
Import Tree Filter Selection.

(** Equality as [==] sees it is equality, for strings and for node
    querysets. *)
Lemma py_eqb_str_eq s w : py_eqb (PStr s) w = true -> PStr s = w.
Proof. destruct w; try done. simpl. by intros ->%String.eqb_eq. Qed.

Lemma py_eqb_nodeset_eq ms w : py_eqb (PNodeSet ms) w = true -> PNodeSet ms = w.
Proof.
  destruct w as [| | | | | | | |ns]; try done.
  by intros ->%TreeFacts.py_eqb_nodesets_eq.
Qed.

(** A set keeps every member of a list on which [==] is equality. *)
Lemma In_dedup_exact (vs : list pyval) (v : pyval) :
  Forall (fun u => forall w, py_eqb u w = true -> u = w) vs ->
  In v vs -> In v (MultipleChoiceFilter.dedup vs).
Proof.
  induction 1 as [|u vs Hu _ IH]; simpl; [done|].
  intros [->|Hin]; [by left|].
  destruct (py_eqb u v) eqn:E.
  - left. by apply Hu.
  - right. apply filter_In. split; [by apply IH|]. by rewrite E.
Qed.

(** The library's multi-value filter on a non-empty list of hashable
    members, for a filter that is not conjoined. *)
Lemma filter_hashable gfp self qs (ws : list pyval) st :
  ws <> [] -> forallb MultipleChoiceFilter.hashable ws = true -> conjoined self = false ->
  MultipleChoiceFilter.filter gfp self qs (PList ws) st
  = bind (get_method self qs
            (fold_left (fun q p => q_or q (QAnd p))
               (map (fun v => gfp self (if py_eqb v (PStr (null_value self)) then PNone else v))
                    (MultipleChoiceFilter.dedup ws))
               (QAnd ∅)))
         (fun qs => if distinct self then QuerySet.distinct qs else ret qs) st.
Proof.
  intros Hne Hh Hconj. unfold MultipleChoiceFilter.filter.
  assert (truthy (PList ws) = true) as -> by by destruct ws.
  simpl. unfold MultipleChoiceFilter.py_set. rewrite Hh.
  unfold bind at 1, lift. by rewrite Hconj.
Qed.

(** The predicate built for a string entry. *)
Lemma predicate_of_string self s :
  TreeNodeMultipleChoiceFilter.get_filter_predicate MultipleChoiceFilter.get_filter_predicate
    self (if py_eqb (PStr s) (PStr (null_value self)) then PNone else PStr s)
  = if String.eqb s (null_value self)
    then {[ field_name self +:+ "__isnull" := PBool true ]}
    else {[ MultipleChoiceFilter.predicate_name self := PStr s ]}.
Proof.
  simpl. destruct (String.eqb s (null_value self)); simpl; [done|].
  unfold MultipleChoiceFilter.get_filter_predicate. by destruct (to_field_name self).
Qed.

Lemma predicate_nonempty self v :
  isinstance_str v = true \/ (exists n, v = PNode n) ->
  q_is_empty (QAnd (TreeNodeMultipleChoiceFilter.get_filter_predicate
                      MultipleChoiceFilter.get_filter_predicate self
                      (if py_eqb (handed_over v) (PStr (null_value self))
                       then PNone else handed_over v))) = false.
Proof.
  intros [Hs|[n ->]].
  - destruct v as [| | |s| | | | |]; try done.
    change (handed_over (PStr s)) with (PStr s). rewrite predicate_of_string.
    destruct (String.eqb s (null_value self)); apply MultiFacts.q_is_empty_singleton.
  - change (py_eqb (handed_over (PNode n)) (PStr (null_value self))) with false.
    cbv iota. unfold handed_over. rewrite MultiFacts.predicate_of_nodeset.
    apply MultiFacts.q_is_empty_singleton.
Qed.

End MixedFacts.

(** X16: over the library's multi-value filter (not conjoined, not
    excluding), a non-empty selection of nodes and of the null-value
    string, which is what the filter's field hands over, given to
    [TreeNodeMultipleChoiceFilter.filter] on a live queryset yields a
    new queryset whose rows are the rows of [qs] that one entry
    selects: a node selects the rows linked to it or to a node below
    it, the null value selects the rows on which
    [<field_name>__isnull = True] holds. *)
Theorem TreeNodeMultipleChoiceFilter_nodes_and_null
    (self : Filter.t) (st : store) (qs : ref) (q : Query) (vs : list pyval) :
  st !! qs = Some q ->
  vs <> [] ->
  Forall (fun v => v = PStr (Filter.null_value self) \/ exists n, v = PNode n) vs ->
  Filter.conjoined self = false ->
  Filter.exclude self = false ->
  exists (r : ref) (st' : store) (q' : Query),
    TreeNodeMultipleChoiceFilter.filter
      MultipleChoiceFilter.get_filter_predicate MultipleChoiceFilter.filter
      self qs (PList vs) st = (Ok r, st') /\
    st !! r = None /\ st' !! r = Some q' /\ st' !! qs = Some q /\
    forall (row : Type) (Heq : EqDecision row)
           (holds : row -> string -> pyval -> bool) (table : list row)
           (linked : row -> node -> bool),
      (forall x ms, holds x (MultipleChoiceFilter.predicate_name self) (PNodeSet ms)
                    = existsb (linked x) ms) ->
      forall x : row,
        x ∈ rows holds table q' <->
        x ∈ rows holds table q /\
        exists v, In v vs /\
          match v with
          | PNode n => exists m, (m = n \/ Tree.below n m) /\ linked x m = true
          | PStr _ => holds x (Filter.field_name self +:+ "__isnull") (PBool true) = true
          | _ => False
          end.
Proof.
  intros Hlive Hne Hnull Hconj Hexcl.
  assert (Forall (fun v => isinstance_str v = true \/ exists n, v = PNode n) vs) as Hvs.
  { eapply Forall_impl; [exact Hnull|]. intros v [->|H]; [by left | by right]. }
  rewrite (TreeFilterFacts.filter_strings_and_nodes _ _ _ _ _ _ Hvs).
  fold Selection.handed_over.
  set (ws := map Selection.handed_over vs).
  assert (ws <> []) as Hws by by destruct vs.
  assert (forallb MultipleChoiceFilter.hashable ws = true) as Hhash.
  { apply forallb_forall. intros w (v & <- & Hv)%in_map_iff.
    rewrite Forall_forall in Hvs. apply list_elem_of_In in Hv.
    destruct (Hvs v Hv) as [Hs|[n ->]]; [by destruct v | done]. }
  assert (Forall (fun u => forall w, py_eqb u w = true -> u = w) ws) as Hexact.
  { apply Forall_forall. intros w (v & -> & Hv)%list_elem_of_fmap.
    rewrite Forall_forall in Hvs.
    destruct (Hvs v Hv) as [Hs|[n ->]].
    - destruct v; try done. apply MixedFacts.py_eqb_str_eq.
    - apply MixedFacts.py_eqb_nodeset_eq. }
  rewrite (MixedFacts.filter_hashable _ self qs ws st Hws Hhash Hconj).
  set (pred := fun v : pyval => TreeNodeMultipleChoiceFilter.get_filter_predicate _ _ _).
  set (c := fold_left _ _ _).
  destruct (FilterFacts.get_method_then_distinct_live self qs c st q Hlive)
    as (r & st' & Hrun & Hpre & Hnew & Hq').
  eexists r, st', _. split; [exact Hrun|]. split; [done|]. split; [exact Hq'|].
  split; [by eapply prefix_lookup_Some|].
  intros row Heq holds table linked Hlinked x.
  assert (x ∈ rows holds table
            (if Filter.distinct self
             then set_distinct (add_condition (Filter.exclude self) c q)
             else add_condition (Filter.exclude self) c q)
          <-> x ∈ rows holds table (add_condition (Filter.exclude self) c q)) as ->.
  { destruct (Filter.distinct self); [apply rows_set_distinct | done]. }
  rewrite rows_add_condition, Hexcl. unfold condition_holds. simpl.
  assert (q_holds holds x c = true <->
          exists v, In v vs /\ kw_holds holds x (pred (Selection.handed_over v)) = true) as ->.
  { unfold c. rewrite MultiFacts.q_holds_fold_or.
    - rewrite existsb_exists. split.
      + intros (p & Hp & Hh). apply in_map_iff in Hp as (w & <- & Hw).
        apply MultiFacts.In_dedup in Hw. apply in_map_iff in Hw as (v & <- & Hv). eauto.
      + intros (v & Hv & Hh). exists (pred (Selection.handed_over v)). split; [|done].
        apply in_map_iff. exists (Selection.handed_over v). split; [done|].
        apply MixedFacts.In_dedup_exact; [done|]. apply in_map_iff. eauto.
    - apply Forall_forall. intros p (w & -> & Hw)%list_elem_of_fmap.
      apply list_elem_of_In, MultiFacts.In_dedup, in_map_iff in Hw as (v & <- & Hv).
      apply MixedFacts.predicate_nonempty.
      rewrite Forall_forall in Hvs. apply Hvs. by apply list_elem_of_In.
    - intros H%map_eq_nil. revert H. by apply MultiFacts.dedup_nonempty. }
  assert (forall v, In v vs ->
            kw_holds holds x (pred (Selection.handed_over v)) = true <->
            match v with
            | PNode n => exists m, (m = n \/ Tree.below n m) /\ linked x m = true
            | PStr _ => holds x (Filter.field_name self +:+ "__isnull") (PBool true) = true
            | _ => False
            end) as Hsel.
  { intros v Hv. rewrite Forall_forall in Hnull. apply list_elem_of_In in Hv.
    destruct (Hnull v Hv) as [->|[n ->]].
    - unfold pred. change (Selection.handed_over (PStr (Filter.null_value self)))
        with (PStr (Filter.null_value self)).
      rewrite MixedFacts.predicate_of_string, String.eqb_refl.
      by rewrite kw_holds_singleton.
    - unfold pred.
      change (py_eqb (Selection.handed_over (PNode n)) (PStr (Filter.null_value self)))
        with false.
      cbv iota. unfold Selection.handed_over.
      rewrite MultiFacts.predicate_of_nodeset, kw_holds_singleton, Hlinked, existsb_exists.
      split; intros (m & Hm & Hl); exists m; (split; [|done]);
        by apply TreeFacts.In_get_descendants. }
  split; intros [Hx (v & Hv & Hh)]; (split; [done|]); exists v; (split; [done|]);
    by apply Hsel.
Qed.

Lemma TreeNodeMultipleChoiceFilter_nodes_and_null_witness :
  [Samples.all_objects] !! 0%nat = Some Samples.all_objects /\
  [PNode Samples.spain; PStr "null"] <> [] /\
  Forall (fun v => v = PStr (Filter.null_value Samples.region_filter) \/
                   exists n, v = PNode n)
    [PNode Samples.spain; PStr "null"] /\
  Filter.conjoined Samples.region_filter = false /\
  Filter.exclude Samples.region_filter = false /\
  exists (r : ref) (st' : store) (q' : Query),
    TreeNodeMultipleChoiceFilter.filter
      MultipleChoiceFilter.get_filter_predicate MultipleChoiceFilter.filter
      Samples.region_filter 0%nat (PList [PNode Samples.spain; PStr "null"])
      [Samples.all_objects] = (Ok r, st') /\
    st' !! r = Some q' /\
    "madrid-dc" ∈ rows Samples.site_holds Samples.sites q'.
Proof.
  assert (Forall (fun v => v = PStr (Filter.null_value Samples.region_filter) \/
                           exists n, v = PNode n)
            [PNode Samples.spain; PStr "null"]) as H.
  { constructor; [right; by eexists|]. constructor; [by left|]. constructor. }
  split; [reflexivity|]. split; [discriminate|]. split; [exact H|].
  split; [reflexivity|]. split; [reflexivity|].
  destruct (TreeNodeMultipleChoiceFilter_nodes_and_null Samples.region_filter
              [Samples.all_objects] 0%nat Samples.all_objects
              [PNode Samples.spain; PStr "null"] eq_refl ltac:(discriminate) H
              eq_refl eq_refl)
    as (r & st' & q' & Hrun & _ & Hq' & _ & Hrows).
  exists r, st', q'. split; [exact Hrun|]. split; [exact Hq'|].
  apply (Hrows string _ Samples.site_holds Samples.sites Samples.in_region).
  - reflexivity.
  - split.
    + apply list_elem_of_In. simpl. tauto.
    + exists (PNode Samples.spain). split; [by left|].
      exists Samples.madrid. split; [|reflexivity].
      right. apply Tree.below_child. simpl. tauto.
Defined.

(** ** Constructing the filters *)

(** X17: [MultiValueArrayFilter.__init__] hands every keyword
    argument of the call on to [super().__init__] as it is, and adds
    [lookup_expr='contains'] exactly when the call gave none: a
    [lookup_expr] of the caller is never replaced. *)
Theorem MultiValueArrayFilter_init_lookup_expr
    {V S : Type} (contains : V) (super_init : list V -> gmap string V -> S)
    (args : list V) (keywords : gmap string V) :
  (forall v, keywords !! "lookup_expr" = Some v ->
     MultiValueArrayFilter.__init__ contains super_init args keywords
     = super_init args keywords) /\
  (keywords !! "lookup_expr" = None ->
     MultiValueArrayFilter.__init__ contains super_init args keywords
     = super_init args (<[ "lookup_expr" := contains ]> keywords)) /\
  (exists kwargs,
     MultiValueArrayFilter.__init__ contains super_init args keywords
     = super_init args kwargs /\
     is_Some (kwargs !! "lookup_expr") /\
     forall k, k <> "lookup_expr" -> kwargs !! k = keywords !! k).
Proof.
  unfold MultiValueArrayFilter.__init__. split; [|split].
  - intros v Hv. rewrite Hv. simpl. by rewrite insert_delete_id.
  - intros Hv. rewrite Hv. simpl. by rewrite insert_delete_eq.
  - eexists. split; [done|]. split.
    + rewrite lookup_insert_eq. by eexists.
    + intros k Hk. rewrite lookup_insert_ne by done. by rewrite lookup_delete_ne.
Qed.

Lemma MultiValueArrayFilter_init_lookup_expr_witness :
  ({[ "field_name" := PStr "asns"; "lookup_expr" := PStr "overlap" ]} : gmap string pyval)
    !! "lookup_expr" = Some (PStr "overlap") /\
  MultiValueArrayFilter.__init__ (PStr "contains") Samples.keep_keywords []
    {[ "field_name" := PStr "asns"; "lookup_expr" := PStr "overlap" ]}
  = Done {[ "field_name" := PStr "asns"; "lookup_expr" := PStr "overlap" ]}.
Proof.
  split; [reflexivity|].
  apply (proj1 (MultiValueArrayFilter_init_lookup_expr (PStr "contains")
                  Samples.keep_keywords []
                  {[ "field_name" := PStr "asns"; "lookup_expr" := PStr "overlap" ]})
               (PStr "overlap")).
  reflexivity.
Defined.

Module InitFacts.

Lemma get_openapi_type_class mro :
  TreeNodeMultipleChoiceFilter.__get_openapi_type (PClass mro)
  = Ok (if derives_from "IntegerField" mro then INT
        else if derives_from "FloatField" mro then FLOAT
        else STR).
Proof.
  unfold TreeNodeMultipleChoiceFilter.__get_openapi_type. simpl.
  destruct (derives_from "IntegerField" mro); [done|].
  by destruct (derives_from "FloatField" mro).
Qed.

Lemma get_openapi_type_instance mro :
  TreeNodeMultipleChoiceFilter.__get_openapi_type (PInstance mro)
  = if derives_from "IntegerField" mro then Ok INT else Raise TypeError.
Proof.
  unfold TreeNodeMultipleChoiceFilter.__get_openapi_type. simpl.
  by destruct (derives_from "IntegerField" mro).
Qed.

End InitFacts.

(** X18: [__get_openapi_type] never raises on a class: the type is
    INT for a class that derives from [IntegerField], else FLOAT for
    one that derives from [FloatField], else STR. On an instance it
    returns INT for an instance of [IntegerField] and raises
    [TypeError] for every other one, because [issubclass] is asked
    about an object that is no class: an instance never gives FLOAT
    or STR. *)
Theorem get_openapi_type_by_kind :
  (forall mro,
     TreeNodeMultipleChoiceFilter.__get_openapi_type (PClass mro)
     = Ok (if derives_from "IntegerField" mro then INT
           else if derives_from "FloatField" mro then FLOAT
           else STR)) /\
  (forall mro,
     TreeNodeMultipleChoiceFilter.__get_openapi_type (PInstance mro)
     = if derives_from "IntegerField" mro then Ok INT else Raise TypeError) /\
  (forall o t,
     TreeNodeMultipleChoiceFilter.__get_openapi_type o = Ok t ->
     t <> INT -> exists mro, o = PClass mro).
Proof.
  split; [apply InitFacts.get_openapi_type_class|].
  split; [apply InitFacts.get_openapi_type_instance|].
  intros [mro|mro] t; [by eexists|].
  rewrite InitFacts.get_openapi_type_instance. destruct (derives_from "IntegerField" mro); [|done].
  by intros [= <-].
Qed.

Lemma get_openapi_type_by_kind_witness :
  TreeNodeMultipleChoiceFilter.__get_openapi_type (PClass ["FloatField"; "Field"]) = Ok FLOAT /\
  FLOAT <> INT /\
  exists mro, PClass ["FloatField"; "Field"] = PClass mro.
Proof.
  split; [reflexivity|]. split; [discriminate|].
  apply (proj2 (proj2 get_openapi_type_by_kind) (PClass ["FloatField"; "Field"]) FLOAT);
    [reflexivity | discriminate].
Defined.

(** X19: when [field_name] and [to_field_name] are both given by
    keyword but [queryset] is not, [TreeNodeMultipleChoiceFilter.__init__]
    fails with [KeyError('queryset')]; neither [get_field] nor
    [super().__init__] has a say. *)
Theorem TreeNodeMultipleChoiceFilter_init_missing_queryset
    {V E S : Type}
    (get_field : V -> V -> outcome E (list string))
    (build_basic_type : OpenApiTypes -> gmap string V) (empty_string : V)
    (super_init : list V -> gmap string V -> outcome E S)
    (args : list V) (kwargs : gmap string V) :
  contains_key "field_name" kwargs = true ->
  contains_key "to_field_name" kwargs = true ->
  kwargs !! "queryset" = None ->
  TreeNodeMultipleChoiceFilter.__init__ get_field build_basic_type empty_string super_init
    args kwargs = Failed (KeyError "queryset").
Proof.
  intros Hf Ht Hq. unfold TreeNodeMultipleChoiceFilter.__init__, getitem.
  by rewrite Hf, Ht, Hq.
Qed.

Lemma TreeNodeMultipleChoiceFilter_init_missing_queryset_witness :
  contains_key "field_name"
    ({[ "field_name" := PStr "region"; "to_field_name" := PStr "slug" ]} : gmap string pyval)
  = true /\
  TreeNodeMultipleChoiceFilter.__init__ Samples.region_get_field Samples.basic_type
    (PStr "") Samples.keep_keywords []
    {[ "field_name" := PStr "region"; "to_field_name" := PStr "slug" ]}
  = Failed (KeyError "queryset").
Proof.
  split; [reflexivity|].
  apply TreeNodeMultipleChoiceFilter_init_missing_queryset; reflexivity.
Defined.

(** X20: unless [field_name] and [to_field_name] are both given by
    keyword, [TreeNodeMultipleChoiceFilter.__init__] leaves the
    annotation at the class default [{}] and is [super().__init__]
    on the same arguments: [queryset] and [label] are not read and
    [get_field] is not asked. *)
Theorem TreeNodeMultipleChoiceFilter_init_no_annotation
    {V E S : Type}
    (get_field : V -> V -> outcome E (list string))
    (build_basic_type : OpenApiTypes -> gmap string V) (empty_string : V)
    (super_init : list V -> gmap string V -> outcome E S)
    (args : list V) (kwargs : gmap string V) :
  kwargs !! "field_name" = None \/ kwargs !! "to_field_name" = None ->
  TreeNodeMultipleChoiceFilter.__init__ get_field build_basic_type empty_string super_init
    args kwargs
  = obind (super_init args kwargs) (fun s => Done (∅, s)).
Proof.
  intros H. unfold TreeNodeMultipleChoiceFilter.__init__, contains_key.
  destruct H as [-> | ->]; [done|]. by rewrite andb_false_r.
Qed.

Lemma TreeNodeMultipleChoiceFilter_init_no_annotation_witness :
  (({[ "field_name" := PStr "region"; "label" := PStr "Region" ]} : gmap string pyval)
     !! "field_name" = None \/
   ({[ "field_name" := PStr "region"; "label" := PStr "Region" ]} : gmap string pyval)
     !! "to_field_name" = None) /\
  TreeNodeMultipleChoiceFilter.__init__ Samples.region_get_field Samples.basic_type
    (PStr "") Samples.keep_keywords []
    {[ "field_name" := PStr "region"; "label" := PStr "Region" ]}
  = Done (∅, {[ "field_name" := PStr "region"; "label" := PStr "Region" ]}).
Proof.
  split; [by right|].
  rewrite TreeNodeMultipleChoiceFilter_init_no_annotation by by right.
  reflexivity.
Defined.

(** X21: with [field_name], [to_field_name] and [queryset] given,
    [TreeNodeMultipleChoiceFilter.__init__] fails as [get_field]
    fails, and otherwise annotates the object before
    [super().__init__] runs: the annotation has the one key [field],
    whose description is the label of the call, or the empty string
    without a label, even where [build_basic_type] gave a
    description of its own, and whose other entries are those of
    [build_basic_type] for the type of the field found. *)
Theorem TreeNodeMultipleChoiceFilter_init_annotation
    {V E S : Type}
    (get_field : V -> V -> outcome E (list string))
    (build_basic_type : OpenApiTypes -> gmap string V) (empty_string : V)
    (super_init : list V -> gmap string V -> outcome E S)
    (args : list V) (kwargs : gmap string V) (field_name queryset to_field_name : V) :
  kwargs !! "field_name" = Some field_name ->
  kwargs !! "to_field_name" = Some to_field_name ->
  kwargs !! "queryset" = Some queryset ->
  let init := TreeNodeMultipleChoiceFilter.__init__
                get_field build_basic_type empty_string super_init in
  (forall e, get_field queryset to_field_name = Failed e -> init args kwargs = Failed e) /\
  (forall mro, get_field queryset to_field_name = Done mro ->
     let openapi_type := if derives_from "IntegerField" mro then INT
                         else if derives_from "FloatField" mro then FLOAT
                         else STR in
     let field := <[ "description" := default empty_string (kwargs !! "label") ]>
                    (build_basic_type openapi_type) in
     init args kwargs
     = obind (super_init args kwargs) (fun s => Done ({[ "field" := field ]}, s)) /\
     field !! "description" = Some (default empty_string (kwargs !! "label")) /\
     forall k, k <> "description" -> field !! k = build_basic_type openapi_type !! k).
Proof.
  intros Hf Ht Hq init.
  unfold init, TreeNodeMultipleChoiceFilter.__init__, contains_key, getitem.
  rewrite Hf, Ht, Hq. simpl. split.
  - by intros e ->.
  - intros mro ->. simpl. split; [|split].
    + rewrite InitFacts.get_openapi_type_class. simpl.
      by destruct (kwargs !! "label").
    + by rewrite lookup_insert_eq.
    + intros k Hk. by rewrite lookup_insert_ne.
Qed.

Lemma TreeNodeMultipleChoiceFilter_init_annotation_witness :
  Samples.region_id_keywords !! "field_name" = Some (PStr "region") /\
  Samples.region_id_keywords !! "to_field_name" = Some (PStr "id") /\
  Samples.region_id_keywords !! "queryset" = Some (PNodeSet [Samples.europe]) /\
  Samples.region_get_field (PNodeSet [Samples.europe]) (PStr "id")
  = Done ["AutoField"; "IntegerField"; "Field"] /\
  TreeNodeMultipleChoiceFilter.__init__ Samples.region_get_field Samples.basic_type
    (PStr "") Samples.keep_keywords [] Samples.region_id_keywords
  = Done ({[ "field" := {[ "type" := PStr "integer";
                           "description" := PStr "Region (ID)" ]} ]},
          Samples.region_id_keywords).
Proof.
  split; [reflexivity|]. split; [reflexivity|]. split; [reflexivity|]. split; [reflexivity|].
  destruct (proj2 (TreeNodeMultipleChoiceFilter_init_annotation
              Samples.region_get_field Samples.basic_type (PStr "") Samples.keep_keywords
              [] Samples.region_id_keywords
              (PStr "region") (PNodeSet [Samples.europe]) (PStr "id")
              eq_refl eq_refl eq_refl)
            ["AutoField"; "IntegerField"; "Field"] eq_refl) as (Hrun & _).
  rewrite Hrun. reflexivity.
Defined.
